(** * Stairs-AI demo: the parameter re-simulation engine

    A shallow embedding of [web/src/lib/computeDerived.ts]
    ([recomputePhoneForPerson], [recomputeWithThreshold], [simulateDebounce],
    [determineEventType], [compareParameters]) together with the record
    types of the frame packets it reads, and the properties of the
    debounce state machine that the specification states about them. *)

From Stdlib Require Import ZArith List String Bool Lia.
From Stdlib Require Import Floats.SpecFloat.
Import ListNotations.
Open Scope Z_scope.

(* ================================================================== *)
(** ** JavaScript numbers *)

(** A JS [number] is an IEEE 754 binary64 value: [spec_float] with a
    53-bit mantissa and exponents up to 1024.  [S754_finite s m e] is
    the value [(-1)^s * m * 2^e]. *)
Module JsNumber.

Definition number := spec_float.

Definition prec : Z := 53.
Definition emax : Z := 1024.

Definition mul (x y : number) : number := SFmul prec emax x y.
Definition div (x y : number) : number := SFdiv prec emax x y.

(** [x < y] and [x <= y]; both are [false] as soon as one side is NaN. *)
Definition lt (x y : number) : bool := SFltb x y.
Definition le (x y : number) : bool := SFleb x y.

(** The number denoted by an integer literal or an integer counter. *)
Definition of_int (z : Z) : number := binary_normalize prec emax z 0 false.

Definition is_finite (x : number) : bool :=
  match x with
  | S754_zero _ | S754_finite _ _ _ => true
  | S754_infinity _ | S754_nan => false
  end.

(** What [Math.ceil] returns: an integer-valued number, an infinity or
    NaN.  (The sign of a zero result is dropped; no comparison below
    observes it.) *)
Inductive integral : Type :=
| Int (z : Z)
| PosInfinity
| NegInfinity
| NotANumber.

(** [Math.ceil]: the least integer not below the exact value of [x]. *)
Definition ceil (x : number) : integral :=
  match x with
  | S754_nan => NotANumber
  | S754_infinity false => PosInfinity
  | S754_infinity true => NegInfinity
  | S754_zero _ => Int 0
  | S754_finite s m e =>
      let sm := if s then Z.neg m else Z.pos m in
      if 0 <=? e then Int (sm * 2 ^ e)
      else Int (- ((- sm) / 2 ^ (- e)))
  end.

(** [count >= bound] for an integer counter [count] against a result of
    [Math.ceil]. *)
Definition int_ge (count : Z) (bound : integral) : bool :=
  match bound with
  | Int z => z <=? count
  | PosInfinity => false
  | NegInfinity => true
  | NotANumber => false
  end.

End JsNumber.
Import JsNumber.

(** The literals of the source, as binary64 values. *)
Definition DEFAULT_PHONE_THRESHOLD : number :=        (* 0.05 *)
  S754_finite false 7205759403792794 (-57).
Definition DEFAULT_DEBOUNCE_DURATION : number :=      (* 0.55 *)
  S754_finite false 4953959590107546 (-53).

(* ================================================================== *)
(** ** The frame packets (the interfaces at [lib/format.ts], lines 134-191) *)

Record RailHitTestResult : Type := {
  left_wrist_in_left_rail : bool;
  right_wrist_in_left_rail : bool;
  left_wrist_in_right_rail : bool;
  right_wrist_in_right_rail : bool;
  any_hit : bool
}.

Record PhoneHeuristicResult : Type := {
  left_wrist_to_left_ear_dist : number;
  left_wrist_to_right_ear_dist : number;
  right_wrist_to_left_ear_dist : number;
  right_wrist_to_right_ear_dist : number;
  min_distance : number;
  threshold : number;
  is_phone_talking : bool
}.

(** The fields of a person that this module reads or rebuilds; the bounding
    box, the pose and the crop path are copied along by the object spread
    and are left out. *)
Record PersonAnalysis : Type := {
  person_id : Z;
  confidence : number;
  rail_hit_test : option RailHitTestResult;
  phone_heuristic : option PhoneHeuristicResult;
  compliance_status : string
}.

Record FrameMetrics : Type := {
  total_persons : Z;
  compliant_count : Z;
  non_compliant_count : Z;
  phone_count : Z;
  avg_confidence : number
}.

(** [type ComplianceState = 'compliant' | 'non_compliant' | 'unknown'] and
    [type PhoneState = 'phone' | 'no_phone' | 'unknown']. *)
Inductive ComplianceState : Type := compliant | non_compliant | unknownC.
Inductive PhoneState : Type := phone | no_phone | unknownP.
Definition StateTuple : Type := (ComplianceState * PhoneState)%type.

Record StateMachineState : Type := {
  current_state : StateTuple;
  pending_state : option StateTuple;
  time_in_pending : number;
  debounce_threshold : number
}.

Record FramePacket : Type := {
  frame_number : Z;
  timestamp_sec : number;
  metrics : FrameMetrics;
  persons : list PersonAnalysis;
  state_machine : option StateMachineState
}.

Module SimulatedEvent.
Record t : Type := {
  frame_number : Z;
  timestamp_sec : number;
  old_state : StateTuple;
  new_state : StateTuple;
  event_type : string
}.
End SimulatedEvent.

Module SimulationStats.
Record t : Type := {
  totalFrames : Z;
  compliantFrames : Z;
  nonCompliantFrames : Z;
  phoneFrames : Z;
  totalCommits : Z
}.
End SimulationStats.

Module SimulationResult.
Record t : Type := {
  packets : list FramePacket;
  events : list SimulatedEvent.t;
  stats : SimulationStats.t
}.
End SimulationResult.

Definition ComplianceState_eqb (a b : ComplianceState) : bool :=
  match a, b with
  | compliant, compliant | non_compliant, non_compliant | unknownC, unknownC => true
  | _, _ => false
  end.

Definition PhoneState_eqb (a b : PhoneState) : bool :=
  match a, b with
  | phone, phone | no_phone, no_phone | unknownP, unknownP => true
  | _, _ => false
  end.

(** [a[0] === b[0] && a[1] === b[1]] *)
Definition StateTuple_eqb (a b : StateTuple) : bool :=
  ComplianceState_eqb (fst a) (fst b) && PhoneState_eqb (snd a) (snd b).

(* ================================================================== *)
(** ** The raw signal: lines 17-60 and 110-131 *)

(** [recomputePhoneForPerson], lines 17-27. *)
Definition recomputePhoneForPerson
    (phoneHeuristic : option PhoneHeuristicResult) (newThreshold : number) : bool :=
  match phoneHeuristic with
  | None => false
  | Some h => lt (min_distance h) newThreshold
  end.

(** The object built for one person by the [map] callbacks of lines 37-47
    and 111-121. *)
Definition recomputePerson (phoneThreshold : number) (person : PersonAnalysis)
  : PersonAnalysis :=
  let isPhone := recomputePhoneForPerson (phone_heuristic person) phoneThreshold in
  {| person_id := person_id person;
     confidence := confidence person;
     rail_hit_test := rail_hit_test person;
     phone_heuristic :=
       match phone_heuristic person with
       | Some h =>
           Some {| left_wrist_to_left_ear_dist := left_wrist_to_left_ear_dist h;
                   left_wrist_to_right_ear_dist := left_wrist_to_right_ear_dist h;
                   right_wrist_to_left_ear_dist := right_wrist_to_left_ear_dist h;
                   right_wrist_to_right_ear_dist := right_wrist_to_right_ear_dist h;
                   min_distance := min_distance h;
                   threshold := phoneThreshold;
                   is_phone_talking := isPhone |}
       | None => None
       end;
     compliance_status := compliance_status person |}.

(** [p.rail_hit_test?.any_hit] and [p.phone_heuristic?.is_phone_talking]
    as conditions: [undefined] counts as false. *)
Definition railTruthy (p : PersonAnalysis) : bool :=
  match rail_hit_test p with Some r => any_hit r | None => false end.
Definition phoneTruthy (p : PersonAnalysis) : bool :=
  match phone_heuristic p with Some h => is_phone_talking h | None => false end.

Definition with_phone_count (m : FrameMetrics) (n : Z) : FrameMetrics :=
  {| total_persons := total_persons m;
     compliant_count := compliant_count m;
     non_compliant_count := non_compliant_count m;
     phone_count := n;
     avg_confidence := avg_confidence m |}.

(** [xs.filter(f).length] *)
Definition filter_length {A : Type} (f : A -> bool) (xs : list A) : Z :=
  Z.of_nat (List.length (filter f xs)).

(** [recomputeWithThreshold], lines 32-60. *)
Definition recomputeWithThreshold (packets : list FramePacket) (phoneThreshold : number)
  : list FramePacket :=
  map (fun packet =>
         let newPersons := map (recomputePerson phoneThreshold) (persons packet) in
         let phoneCount := filter_length phoneTruthy newPersons in
         {| frame_number := frame_number packet;
            timestamp_sec := timestamp_sec packet;
            metrics := with_phone_count (metrics packet) phoneCount;
            persons := newPersons;
            state_machine := state_machine packet |})
      packets.

(** Lines 124-131: the raw state of a frame from its recomputed persons. *)
Definition rawComplianceOf (packet : FramePacket) (recomputedPersons : list PersonAnalysis)
  : ComplianceState :=
  let anyHoldingRail := existsb railTruthy recomputedPersons in
  if total_persons (metrics packet) =? 0 then unknownC
  else if anyHoldingRail then compliant else non_compliant.

Definition rawPhoneOf (recomputedPersons : list PersonAnalysis) : PhoneState :=
  let anyUsingPhone := existsb phoneTruthy recomputedPersons in
  if anyUsingPhone then phone else no_phone.

Definition rawStateOf (phoneThreshold : number) (packet : FramePacket) : StateTuple :=
  let recomputedPersons := map (recomputePerson phoneThreshold) (persons packet) in
  (rawComplianceOf packet recomputedPersons, rawPhoneOf recomputedPersons).

(* ================================================================== *)
(** ** Exceptions *)

(** The module is an ES module, hence strict code: an assignment to an
    identifier that no scope declares raises a [ReferenceError]. *)
Inductive JsError : Type :=
| ReferenceError (name : string).

Inductive completion (A : Type) : Type :=
| Normal (a : A)
| Throw (e : JsError).
Arguments Normal {A} a.
Arguments Throw {A} e.

(* ================================================================== *)
(** ** [simulateDebounce], lines 72-203 *)

(** The variables declared at lines 98-107. *)
Record Locals : Type := {
  stableState : StateTuple;
  pendingState : option StateTuple;
  pendingFrameCount : Z;
  events : list SimulatedEvent.t;
  processedPackets : list FramePacket;
  compliantFrames : Z;
  nonCompliantFrames : Z;
  phoneFrames : Z
}.

Definition initialLocals : Locals :=
  {| stableState := (unknownC, unknownP);
     pendingState := None;
     pendingFrameCount := 0;
     events := [];
     processedPackets := [];
     compliantFrames := 0;
     nonCompliantFrames := 0;
     phoneFrames := 0 |}.

(** How one statement sequence over the locals ends: normally, or by an
    exception raised with the locals as they stand at that point. *)
Inductive Outcome : Type :=
| Next (l : Locals)
| Raised (e : JsError) (l : Locals).

Definition andThen (o : Outcome) (k : Locals -> Outcome) : Outcome :=
  match o with
  | Next l => k l
  | Raised e l => Raised e l
  end.

Definition localsOf (o : Outcome) : Locals :=
  match o with Next l | Raised _ l => l end.

(** [name = value] where [name] is not declared anywhere. *)
Definition assignUndeclared (name : string) (l : Locals) : Outcome :=
  Raised (ReferenceError name) l.

(** Assignments to the three variables of the state machine. *)
Definition setMachine (l : Locals) (stable : StateTuple)
    (pending : option StateTuple) (count : Z) : Locals :=
  {| stableState := stable;
     pendingState := pending;
     pendingFrameCount := count;
     events := events l;
     processedPackets := processedPackets l;
     compliantFrames := compliantFrames l;
     nonCompliantFrames := nonCompliantFrames l;
     phoneFrames := phoneFrames l |}.

(** Lines 134-136. *)
Definition updateStats (l : Locals) (rawState : StateTuple) : Locals :=
  {| stableState := stableState l;
     pendingState := pendingState l;
     pendingFrameCount := pendingFrameCount l;
     events := events l;
     processedPackets := processedPackets l;
     compliantFrames :=
       if ComplianceState_eqb (fst rawState) compliant
       then compliantFrames l + 1 else compliantFrames l;
     nonCompliantFrames :=
       if ComplianceState_eqb (fst rawState) compliant then nonCompliantFrames l
       else if ComplianceState_eqb (fst rawState) non_compliant
            then nonCompliantFrames l + 1 else nonCompliantFrames l;
     phoneFrames :=
       if PhoneState_eqb (snd rawState) phone
       then phoneFrames l + 1 else phoneFrames l |}.

(** [events.push(e)] *)
Definition pushEvent (l : Locals) (e : SimulatedEvent.t) : Locals :=
  {| stableState := stableState l;
     pendingState := pendingState l;
     pendingFrameCount := pendingFrameCount l;
     events := events l ++ [e];
     processedPackets := processedPackets l;
     compliantFrames := compliantFrames l;
     nonCompliantFrames := nonCompliantFrames l;
     phoneFrames := phoneFrames l |}.

(** [processedPackets.push(p)] *)
Definition pushPacket (l : Locals) (p : FramePacket) : Locals :=
  {| stableState := stableState l;
     pendingState := pendingState l;
     pendingFrameCount := pendingFrameCount l;
     events := events l;
     processedPackets := processedPackets l ++ [p];
     compliantFrames := compliantFrames l;
     nonCompliantFrames := nonCompliantFrames l;
     phoneFrames := phoneFrames l |}.

(** [determineEventType], lines 230-241. *)
Definition determineEventType (oldState newState : StateTuple) : string :=
  if negb (ComplianceState_eqb (fst oldState) (fst newState)) then
    if ComplianceState_eqb (fst newState) compliant
    then "compliant_start"%string else "non_compliant_start"%string
  else if negb (PhoneState_eqb (snd oldState) (snd newState)) then
    if PhoneState_eqb (snd newState) phone
    then "phone_detected"%string else "phone_ended"%string
  else "state_change"%string.

Definition fps : Z := 24.

(** [Math.ceil(debounceDuration * fps)], line 96. *)
Definition minFramesOf (debounceDuration : number) : integral :=
  ceil (mul debounceDuration (of_int fps)).

(** The state machine logic of lines 139-174 for one frame whose raw state
    is [rawState]. *)
Definition stateMachineLogic (minFrames : integral) (packet : FramePacket)
    (rawState : StateTuple) (l : Locals) : Outcome :=
  if ComplianceState_eqb (fst (stableState l)) unknownC
     && PhoneState_eqb (snd (stableState l)) unknownP then
    if negb (ComplianceState_eqb (fst rawState) unknownC)
    then Next (setMachine l rawState (pendingState l) (pendingFrameCount l))
    else Next l
  else if negb (ComplianceState_eqb (fst rawState) (fst (stableState l)))
          || negb (PhoneState_eqb (snd rawState) (snd (stableState l))) then
    let samePending :=
      match pendingState l with
      | Some pending =>
          ComplianceState_eqb (fst pending) (fst rawState)
          && PhoneState_eqb (snd pending) (snd rawState)
      | None => false
      end in
    if samePending then
      let l1 := setMachine l (stableState l) (pendingState l) (pendingFrameCount l + 1) in
      if int_ge (pendingFrameCount l1) minFrames then
        let oldState := stableState l1 in
        let l2 := setMachine l1 rawState None 0 in
        andThen (assignUndeclared "commitEvent" l2) (fun l3 =>
        Next (pushEvent l3
                {| SimulatedEvent.frame_number := frame_number packet;
                   SimulatedEvent.timestamp_sec := timestamp_sec packet;
                   SimulatedEvent.old_state := oldState;
                   SimulatedEvent.new_state := stableState l3;
                   SimulatedEvent.event_type :=
                     determineEventType oldState (stableState l3) |}))
      else Next l1
    else Next (setMachine l (stableState l) (Some rawState) 1)
  else Next (setMachine l (stableState l) None 0).

(** The packet pushed at lines 176-189. *)
Definition processedPacket (debounceDuration : number) (packet : FramePacket)
    (recomputedPersons : list PersonAnalysis) (l : Locals) : FramePacket :=
  {| frame_number := frame_number packet;
     timestamp_sec := timestamp_sec packet;
     metrics := with_phone_count (metrics packet)
                  (filter_length phoneTruthy recomputedPersons);
     persons := recomputedPersons;
     state_machine :=
       Some {| current_state := stableState l;
               pending_state := pendingState l;
               time_in_pending := div (of_int (pendingFrameCount l)) (of_int fps);
               debounce_threshold := debounceDuration |} |}.

(** One iteration of the loop of lines 109-190. *)
Definition loopBody (phoneThreshold debounceDuration : number) (minFrames : integral)
    (l : Locals) (packet : FramePacket) : Outcome :=
  let recomputedPersons := map (recomputePerson phoneThreshold) (persons packet) in
  let rawState : StateTuple :=
    (rawComplianceOf packet recomputedPersons, rawPhoneOf recomputedPersons) in
  let l1 := updateStats l rawState in
  andThen (stateMachineLogic minFrames packet rawState l1) (fun l2 =>
  Next (pushPacket l2 (processedPacket debounceDuration packet recomputedPersons l2))).

(** [for (const packet of packets)]: the loop stops at the first exception. *)
Fixpoint loop (phoneThreshold debounceDuration : number) (minFrames : integral)
    (l : Locals) (packets : list FramePacket) : Outcome :=
  match packets with
  | [] => Next l
  | packet :: rest =>
      andThen (loopBody phoneThreshold debounceDuration minFrames l packet)
              (fun l' => loop phoneThreshold debounceDuration minFrames l' rest)
  end.

Definition zeroStats : SimulationStats.t :=
  {| SimulationStats.totalFrames := 0;
     SimulationStats.compliantFrames := 0;
     SimulationStats.nonCompliantFrames := 0;
     SimulationStats.phoneFrames := 0;
     SimulationStats.totalCommits := 0 |}.

Definition simulateDebounce (packets : list FramePacket)
    (phoneThreshold debounceDuration : number)
  : completion SimulationResult.t :=
  if Nat.eqb (List.length packets) 0 then
    Normal {| SimulationResult.packets := [];
              SimulationResult.events := [];
              SimulationResult.stats := zeroStats |}
  else
    let minFrames := minFramesOf debounceDuration in
    match loop phoneThreshold debounceDuration minFrames initialLocals packets with
    | Raised e _ => Throw e
    | Next l =>
        Normal {| SimulationResult.packets := processedPackets l;
                  SimulationResult.events := events l;
                  SimulationResult.stats :=
                    {| SimulationStats.totalFrames := Z.of_nat (List.length packets);
                       SimulationStats.compliantFrames := compliantFrames l;
                       SimulationStats.nonCompliantFrames := nonCompliantFrames l;
                       SimulationStats.phoneFrames := phoneFrames l;
                       SimulationStats.totalCommits :=
                         Z.of_nat (List.length (events l)) |} |}
    end.

(** The stable state held after each iteration that was entered, in order;
    for an iteration that raised, the value held when it raised. *)
Fixpoint stableTrace (phoneThreshold debounceDuration : number) (minFrames : integral)
    (l : Locals) (packets : list FramePacket) : list StateTuple :=
  match packets with
  | [] => []
  | packet :: rest =>
      match loopBody phoneThreshold debounceDuration minFrames l packet with
      | Next l' =>
          stableState l' :: stableTrace phoneThreshold debounceDuration minFrames l' rest
      | Raised _ l' => [stableState l']
      end
  end.

(* ================================================================== *)
(** ** [compareParameters], lines 246-265 *)

Module Comparison.
Record delta_t : Type := {
  phoneFramesChange : Z;
  eventsChange : Z
}.
Record run_t : Type := {
  stats : SimulationStats.t
}.
Record t : Type := {
  baseline : run_t;
  tuned : run_t;
  delta : delta_t
}.
End Comparison.

Definition compareParameters (baselineStats tunedStats : SimulationStats.t)
  : Comparison.t :=
  {| Comparison.baseline := {| Comparison.stats := baselineStats |};
     Comparison.tuned := {| Comparison.stats := tunedStats |};
     Comparison.delta :=
       {| Comparison.phoneFramesChange :=
            SimulationStats.phoneFrames tunedStats
            - SimulationStats.phoneFrames baselineStats;
          Comparison.eventsChange :=
            SimulationStats.totalCommits tunedStats
            - SimulationStats.totalCommits baselineStats |} |}.

(* ================================================================== *)
(** ** Frames for concrete runs *)

Definition railResult (hit : bool) : RailHitTestResult :=
  {| left_wrist_in_left_rail := hit;
     right_wrist_in_left_rail := false;
     left_wrist_in_right_rail := false;
     right_wrist_in_right_rail := false;
     any_hit := hit |}.

(** A person measured upstream with threshold 0.05. *)
Definition personWith (hit : bool) (dist : option number) : PersonAnalysis :=
  {| person_id := 1;
     confidence := S754_finite false 7836263351624663 (-53);   (* 0.87 *)
     rail_hit_test := Some (railResult hit);
     phone_heuristic :=
       match dist with
       | Some d =>
           Some {| left_wrist_to_left_ear_dist := d;
                   left_wrist_to_right_ear_dist := d;
                   right_wrist_to_left_ear_dist := d;
                   right_wrist_to_right_ear_dist := d;
                   min_distance := d;
                   threshold := DEFAULT_PHONE_THRESHOLD;
                   is_phone_talking := lt d DEFAULT_PHONE_THRESHOLD |}
       | None => None
       end;
     compliance_status := if hit then "compliant"%string else "non_compliant"%string |}.

(** Frame [n] of a 24 fps recording showing the persons [ps]. *)
Definition frameOf (n : Z) (ps : list PersonAnalysis) : FramePacket :=
  {| frame_number := n;
     timestamp_sec := div (of_int n) (of_int fps);
     metrics :=
       {| total_persons := Z.of_nat (List.length ps);
          compliant_count := filter_length railTruthy ps;
          non_compliant_count := filter_length (fun p => negb (railTruthy p)) ps;
          phone_count := filter_length phoneTruthy ps;
          avg_confidence := S754_finite false 7836263351624663 (-53) |};
     persons := ps;
     state_machine := None |}.

Definition half : number := S754_finite false 4503599627370496 (-53).      (* 0.5 *)
Definition near : number := S754_finite false 8646911284551352 (-58).      (* 0.03 *)

(** Frames numbered [start], [start+1], ..., one per element of [pss]. *)
Fixpoint framesFrom (start : Z) (pss : list (list PersonAnalysis)) : list FramePacket :=
  match pss with
  | [] => []
  | ps :: rest => frameOf start ps :: framesFrom (start + 1) rest
  end.

Definition offRail : list PersonAnalysis := [personWith false (Some half)].
Definition onRail : list PersonAnalysis := [personWith true (Some half)].

(** The scenario of the specification, section 8: frames 0-11 off the rail,
    12-19 on the rail, 20-23 off the rail, 24-35 on the rail. *)
Definition scenario : list FramePacket :=
  framesFrom 0 (repeat offRail 12 ++ repeat onRail 8 ++ repeat offRail 4
                ++ repeat onRail 12).

(** The phone flag of a person under a threshold, as line 112 computes it. *)
Definition phoneFlag (phoneThreshold : number) (p : PersonAnalysis) : bool :=
  recomputePhoneForPerson (phone_heuristic p) phoneThreshold.

(** A person that carries a phone measurement. *)
Definition measured (p : PersonAnalysis) : bool :=
  match phone_heuristic p with Some _ => true | None => false end.

(** The number of frames whose raw phone category is [phone]. *)
Definition phoneFrameCount (phoneThreshold : number) (packets : list FramePacket) : Z :=
  filter_length (fun packet => existsb (phoneFlag phoneThreshold) (persons packet)) packets.

(** The test of line 139. *)
Definition isColdStart (l : Locals) : bool :=
  ComplianceState_eqb (fst (stableState l)) unknownC
  && PhoneState_eqb (snd (stableState l)) unknownP.

(** Along a trace of stable states, an axis that has left Unknown does not
    hold Unknown at any later position. *)
Definition complianceStaysKnown (tr : list StateTuple) : Prop :=
  forall (i j : nat) (s s' : StateTuple),
    (i < j)%nat -> nth_error tr i = Some s -> nth_error tr j = Some s' ->
    fst s <> unknownC -> fst s' <> unknownC.

Definition phoneStaysKnown (tr : list StateTuple) : Prop :=
  forall (i j : nat) (s s' : StateTuple),
    (i < j)%nat -> nth_error tr i = Some s -> nth_error tr j = Some s' ->
    snd s <> unknownP -> snd s' <> unknownP.

Definition between : number := S754_finite false 5764607523034235 (-57).   (* 0.04 *)

(** One frame off the rail, then fourteen frames on the rail. *)
Definition persistentChange : list FramePacket :=
  framesFrom 0 (offRail :: repeat onRail 14).

(** One frame off the rail, then twelve frames showing nobody. *)
Definition vacatedStairs : list FramePacket :=
  framesFrom 0 (offRail :: repeat [] 12).

(** A person whose wrist-to-ear distance 0.04 lies between 0.03 and 0.05. *)
Definition handNearEar : list FramePacket :=
  framesFrom 0 [[personWith false (Some between)]; [personWith false (Some between)]].

(** A person on the rail for whom no phone measurement was taken. *)
Definition unmeasured : list FramePacket :=
  framesFrom 0 [[personWith true None]; [personWith true None; personWith false None]].

(** The result a call returned; the empty result stands for a call that threw. *)
Definition returned (c : completion SimulationResult.t) : SimulationResult.t :=
  match c with
  | Normal r => r
  | Throw _ =>
      {| SimulationResult.packets := [];
         SimulationResult.events := [];
         SimulationResult.stats := zeroStats |}
  end.

(** The [state_machine.current_state] written into a processed packet. *)
Definition currentOf (p : FramePacket) : option StateTuple :=
  option_map current_state (state_machine p).

(** The five ways an iteration completes normally. *)
Inductive NormalStep (mf : integral) (raw : StateTuple) (l l' : Locals) : Prop :=
| step_adopt :
    stableState l = (unknownC, unknownP) -> fst raw <> unknownC ->
    stableState l' = raw -> pendingState l' = pendingState l ->
    pendingFrameCount l' = pendingFrameCount l -> NormalStep mf raw l l'
| step_wait :
    stableState l = (unknownC, unknownP) -> fst raw = unknownC ->
    stableState l' = stableState l -> pendingState l' = pendingState l ->
    pendingFrameCount l' = pendingFrameCount l -> NormalStep mf raw l l'
| step_clear :
    stableState l <> (unknownC, unknownP) -> raw = stableState l ->
    stableState l' = stableState l -> pendingState l' = None ->
    pendingFrameCount l' = 0 -> NormalStep mf raw l l'
| step_candidate :
    stableState l <> (unknownC, unknownP) -> raw <> stableState l ->
    pendingState l <> Some raw ->
    stableState l' = stableState l -> pendingState l' = Some raw ->
    pendingFrameCount l' = 1 -> NormalStep mf raw l l'
| step_count :
    stableState l <> (unknownC, unknownP) -> raw <> stableState l ->
    pendingState l = Some raw -> int_ge (pendingFrameCount l + 1) mf = false ->
    stableState l' = stableState l -> pendingState l' = Some raw ->
    pendingFrameCount l' = pendingFrameCount l + 1 -> NormalStep mf raw l l'.

(* ================================================================== *)
(** ** The Tuning Lab page, which calls [simulateDebounce] and
       [compareParameters] *)

(** [phoneThreshold !== DEFAULT_PHONE_THRESHOLD
     || debounceDuration !== DEFAULT_DEBOUNCE_DURATION] *)
Definition hasChanges (phoneThreshold debounceDuration : number) : bool :=
  negb (SFeqb phoneThreshold DEFAULT_PHONE_THRESHOLD)
  || negb (SFeqb debounceDuration DEFAULT_DEBOUNCE_DURATION).

(** The three memoised values of the page: the baseline run with the
    default parameters, the tuned run with the sliders' values, and their
    comparison, which is [null] for an empty frame list.  An exception of
    either run leaves the page without values. *)
Record TuningLabValues : Type := {
  baselineResult : SimulationResult.t;
  tunedResult : SimulationResult.t;
  comparison : option Comparison.t
}.

Definition tuningLab (packets : list FramePacket)
    (phoneThreshold debounceDuration : number) : completion TuningLabValues :=
  match simulateDebounce packets DEFAULT_PHONE_THRESHOLD DEFAULT_DEBOUNCE_DURATION with
  | Throw e => Throw e
  | Normal baselineResult =>
      match simulateDebounce packets phoneThreshold debounceDuration with
      | Throw e => Throw e
      | Normal tunedResult =>
          Normal {| baselineResult := baselineResult;
                    tunedResult := tunedResult;
                    comparison :=
                      if Nat.eqb (List.length packets) 0 then None
                      else Some (compareParameters
                                   (SimulationResult.stats baselineResult)
                                   (SimulationResult.stats tunedResult)) |}
      end
  end.

(** [TimelineBar]: what decides the colours of one frame's two bars. *)
Definition isCompliant (packet : FramePacket) : bool :=
  0 <? compliant_count (metrics packet).
Definition isPhone (packet : FramePacket) : bool :=
  0 <? phone_count (metrics packet).
Definition complianceBarClass (packet : FramePacket) : string :=
  if total_persons (metrics packet) =? 0 then "bg-gray-500"%string
  else if isCompliant packet then "bg-green-500"%string
  else "bg-red-500"%string.

(** A packet without its [state_machine] block. *)
Definition withoutStateMachine (p : FramePacket) : FramePacket :=
  {| frame_number := frame_number p;
     timestamp_sec := timestamp_sec p;
     metrics := metrics p;
     persons := persons p;
     state_machine := None |}.

(** The number of frames whose raw compliance category is [c]. *)
Definition complianceFrameCount (c : ComplianceState) (packets : list FramePacket) : Z :=
  filter_length
    (fun packet => ComplianceState_eqb (rawComplianceOf packet (persons packet)) c)
    packets.

(** What holds of the machine variables between two iterations. *)
Definition machineInvariant (minFrames : integral) (l : Locals) : Prop :=
  (pendingState l = None /\ pendingFrameCount l = 0)
  \/ (exists q, pendingState l = Some q
                /\ q <> stableState l
                /\ stableState l <> (unknownC, unknownP)
                /\ 1 <= pendingFrameCount l
                /\ (pendingFrameCount l = 1
                    \/ int_ge (pendingFrameCount l) minFrames = false)).

(** A measured person at a distance between the two thresholds, and one
    without measurement, over three frames. *)
Definition mixedFrames : list FramePacket :=
  framesFrom 0 [[personWith false (Some between); personWith true None];
                [personWith false (Some half)];
                []].

(* ================================================================== *)
(** * Properties *)

(** ** Equality tests *)

Lemma ComplianceState_eqb_eq (a b : ComplianceState) :
  ComplianceState_eqb a b = true <-> a = b.
Proof. destruct a, b; simpl; split; congruence. Qed.

Lemma PhoneState_eqb_eq (a b : PhoneState) :
  PhoneState_eqb a b = true <-> a = b.
Proof. destruct a, b; simpl; split; congruence. Qed.

Lemma ComplianceState_eqb_neq (a b : ComplianceState) :
  ComplianceState_eqb a b = false <-> a <> b.
Proof. destruct a, b; simpl; split; congruence. Qed.

Lemma PhoneState_eqb_neq (a b : PhoneState) :
  PhoneState_eqb a b = false <-> a <> b.
Proof. destruct a, b; simpl; split; congruence. Qed.

Lemma ComplianceState_eqb_refl (a : ComplianceState) : ComplianceState_eqb a a = true.
Proof. now destruct a. Qed.

Lemma PhoneState_eqb_refl (a : PhoneState) : PhoneState_eqb a a = true.
Proof. now destruct a. Qed.

Lemma StateTuple_eqb_eq (a b : StateTuple) : StateTuple_eqb a b = true <-> a = b.
Proof.
  destruct a as [a1 a2], b as [b1 b2]; unfold StateTuple_eqb; simpl.
  rewrite andb_true_iff, ComplianceState_eqb_eq, PhoneState_eqb_eq.
  split; [intros [-> ->]; reflexivity | intros [= -> ->]; auto].
Qed.

(** ** Comparisons of numbers *)

Lemma lt_le_trans (x y z : number) :
  lt x y = true -> le y z = true -> lt x z = true.
Proof.
  unfold lt, le, SFltb, SFleb.
  destruct x as [sx|sx| |sx mx ex], y as [sy|sy| |sy my ey], z as [sz|sz| |sz mz ez];
    cbn [SFcompare];
    repeat match goal with s : bool |- _ => destruct s end;
    try discriminate; try reflexivity.
  all: change (Pos.compare_cont Eq ?a ?b) with (Pos.compare a b).
  all: repeat match goal with
       | |- context [Z.compare ?a ?b] => destruct (Z.compare_spec a b)
       | |- context [Pos.compare ?a ?b] => destruct (Pos.compare_spec a b)
       end; cbn; try discriminate; try reflexivity; try lia.
Qed.

Lemma eq_not_lt (x y : number) : SFeqb x y = true -> lt x y = false.
Proof.
  unfold SFeqb, lt, SFltb. destruct (SFcompare x y) as [[| |]|]; congruence.
Qed.

Lemma int_ge_below (n count : Z) : count < n -> int_ge count (Int n) = false.
Proof. intros H. simpl. apply Z.leb_gt. exact H. Qed.

(** [ceil] of a finite number is the least integer not below its value
    [sm * 2^e]; for [e < 0] this reads [z - 1 < sm / 2^(-e) <= z]. *)
Lemma ceil_finite_spec (s : bool) (m : positive) (e : Z) :
  let sm := if s then Z.neg m else Z.pos m in
  exists z, ceil (S754_finite s m e) = Int z
    /\ (0 <= e -> z = sm * 2 ^ e)
    /\ (e < 0 -> (z - 1) * 2 ^ (- e) < sm <= z * 2 ^ (- e)).
Proof.
  intros sm. unfold ceil. fold sm. destruct (Z.leb_spec 0 e) as [He|He].
  - eexists. split; [reflexivity|]. split; [reflexivity | lia].
  - eexists. split; [reflexivity|]. split; [lia|]. intros _.
    assert (Hp : 0 < 2 ^ (- e)) by (apply Z.pow_pos_nonneg; lia).
    pose proof (Z.div_mod (- sm) (2 ^ (- e)) ltac:(lia)) as Hd.
    pose proof (Z.mod_pos_bound (- sm) (2 ^ (- e)) Hp) as Hm.
    nia.
Qed.

(** ** The recomputed persons *)

Lemma railTruthy_recomputePerson (t : number) (p : PersonAnalysis) :
  railTruthy (recomputePerson t p) = railTruthy p.
Proof. reflexivity. Qed.

Lemma phoneTruthy_recomputePerson (t : number) (p : PersonAnalysis) :
  phoneTruthy (recomputePerson t p) = phoneFlag t p.
Proof.
  unfold phoneTruthy, phoneFlag, recomputePerson; simpl.
  destruct (phone_heuristic p); reflexivity.
Qed.

Lemma existsb_map_compose {A B : Type} (f : B -> bool) (g : A -> B) (xs : list A) :
  existsb f (map g xs) = existsb (fun x => f (g x)) xs.
Proof. induction xs as [|x xs IH]; simpl; [reflexivity | now rewrite IH]. Qed.

Lemma filter_length_map {A B : Type} (f : B -> bool) (g : A -> B) (xs : list A) :
  filter_length f (map g xs) = filter_length (fun x => f (g x)) xs.
Proof.
  unfold filter_length. f_equal.
  induction xs as [|x xs IH]; simpl; [reflexivity|].
  destruct (f (g x)); simpl; now rewrite IH.
Qed.

Lemma existsb_ext_in {A : Type} (f g : A -> bool) (xs : list A) :
  (forall x, f x = g x) -> existsb f xs = existsb g xs.
Proof. intros E. induction xs as [|x xs IH]; simpl; [reflexivity | now rewrite E, IH]. Qed.

Lemma filter_length_ext {A : Type} (f g : A -> bool) (xs : list A) :
  (forall x, f x = g x) -> filter_length f xs = filter_length g xs.
Proof.
  intros E. unfold filter_length. f_equal.
  induction xs as [|x xs IH]; simpl; [reflexivity|].
  rewrite E. destruct (g x); simpl; now rewrite IH.
Qed.

Lemma anyHoldingRail_recomputed (t : number) (ps : list PersonAnalysis) :
  existsb railTruthy (map (recomputePerson t) ps) = existsb railTruthy ps.
Proof. now rewrite existsb_map_compose. Qed.

Lemma anyUsingPhone_recomputed (t : number) (ps : list PersonAnalysis) :
  existsb phoneTruthy (map (recomputePerson t) ps) = existsb (phoneFlag t) ps.
Proof.
  rewrite existsb_map_compose. apply existsb_ext_in.
  intros p. apply phoneTruthy_recomputePerson.
Qed.

Lemma phoneCount_recomputed (t : number) (ps : list PersonAnalysis) :
  filter_length phoneTruthy (map (recomputePerson t) ps) = filter_length (phoneFlag t) ps.
Proof.
  rewrite filter_length_map. apply filter_length_ext.
  intros p. apply phoneTruthy_recomputePerson.
Qed.

Lemma rawCompliance_cases (t : number) (packet : FramePacket) :
  fst (rawStateOf t packet) =
    if total_persons (metrics packet) =? 0 then unknownC
    else if existsb railTruthy (persons packet) then compliant else non_compliant.
Proof.
  unfold rawStateOf, rawComplianceOf; simpl. now rewrite anyHoldingRail_recomputed.
Qed.

Lemma rawPhone_cases (t : number) (packet : FramePacket) :
  snd (rawStateOf t packet) =
    if existsb (phoneFlag t) (persons packet) then phone else no_phone.
Proof.
  unfold rawStateOf, rawPhoneOf; simpl. now rewrite anyUsingPhone_recomputed.
Qed.

Lemma rawPhone_known (t : number) (packet : FramePacket) :
  snd (rawStateOf t packet) <> unknownP.
Proof. rewrite rawPhone_cases. destruct (existsb _ _); discriminate. Qed.

(** ** The branches of the state machine logic *)

Lemma isColdStart_true (l : Locals) :
  isColdStart l = true <-> stableState l = (unknownC, unknownP).
Proof.
  unfold isColdStart. destruct (stableState l) as [c p]; simpl.
  rewrite andb_true_iff, ComplianceState_eqb_eq, PhoneState_eqb_eq.
  split; [intros [-> ->]; reflexivity | intros [= -> ->]; auto].
Qed.

Lemma isColdStart_false (l : Locals) :
  isColdStart l = false <-> stableState l <> (unknownC, unknownP).
Proof.
  rewrite <- isColdStart_true. destruct (isColdStart l); split; congruence.
Qed.

Lemma differs_iff (a b : StateTuple) :
  negb (ComplianceState_eqb (fst a) (fst b)) || negb (PhoneState_eqb (snd a) (snd b)) = true
  <-> a <> b.
Proof.
  rewrite <- negb_andb, negb_true_iff.
  change (StateTuple_eqb a b = false <-> a <> b).
  rewrite <- StateTuple_eqb_eq. destruct (StateTuple_eqb a b); split; congruence.
Qed.

Lemma differs_refl (a : StateTuple) :
  negb (ComplianceState_eqb (fst a) (fst a)) || negb (PhoneState_eqb (snd a) (snd a)) = false.
Proof. now rewrite ComplianceState_eqb_refl, PhoneState_eqb_refl. Qed.

Lemma logic_cold_adopt (mf : integral) (packet : FramePacket) (raw : StateTuple) (l : Locals) :
  stableState l = (unknownC, unknownP) -> fst raw <> unknownC ->
  stateMachineLogic mf packet raw l
  = Next (setMachine l raw (pendingState l) (pendingFrameCount l)).
Proof.
  intros Hs Hr. unfold stateMachineLogic.
  apply isColdStart_true in Hs. unfold isColdStart in Hs. rewrite Hs.
  apply ComplianceState_eqb_neq in Hr. now rewrite Hr.
Qed.

Lemma logic_cold_wait (mf : integral) (packet : FramePacket) (raw : StateTuple) (l : Locals) :
  stableState l = (unknownC, unknownP) -> fst raw = unknownC ->
  stateMachineLogic mf packet raw l = Next l.
Proof.
  intros Hs Hr. unfold stateMachineLogic.
  apply isColdStart_true in Hs. unfold isColdStart in Hs. rewrite Hs.
  apply ComplianceState_eqb_eq in Hr. now rewrite Hr.
Qed.

Lemma logic_matches_stable (mf : integral) (packet : FramePacket) (raw : StateTuple) (l : Locals) :
  stableState l <> (unknownC, unknownP) -> raw = stableState l ->
  stateMachineLogic mf packet raw l = Next (setMachine l (stableState l) None 0).
Proof.
  intros Hs ->. unfold stateMachineLogic.
  apply isColdStart_false in Hs. unfold isColdStart in Hs. rewrite Hs.
  now rewrite differs_refl.
Qed.

Lemma logic_new_pending (mf : integral) (packet : FramePacket) (raw : StateTuple) (l : Locals) :
  stableState l <> (unknownC, unknownP) -> raw <> stableState l ->
  pendingState l <> Some raw ->
  stateMachineLogic mf packet raw l = Next (setMachine l (stableState l) (Some raw) 1).
Proof.
  intros Hs Hr Hp. unfold stateMachineLogic.
  apply isColdStart_false in Hs. unfold isColdStart in Hs. rewrite Hs.
  apply differs_iff in Hr. rewrite Hr.
  destruct (pendingState l) as [q|]; [|reflexivity].
  change (ComplianceState_eqb (fst q) (fst raw) && PhoneState_eqb (snd q) (snd raw))
    with (StateTuple_eqb q raw).
  destruct (StateTuple_eqb q raw) eqn:E; [|reflexivity].
  apply StateTuple_eqb_eq in E. congruence.
Qed.

Lemma logic_same_pending (mf : integral) (packet : FramePacket) (raw : StateTuple) (l : Locals) :
  stableState l <> (unknownC, unknownP) -> raw <> stableState l ->
  pendingState l = Some raw ->
  stateMachineLogic mf packet raw l =
    if int_ge (pendingFrameCount l + 1) mf
    then Raised (ReferenceError "commitEvent") (setMachine l raw None 0)
    else Next (setMachine l (stableState l) (Some raw) (pendingFrameCount l + 1)).
Proof.
  intros Hs Hr Hp. unfold stateMachineLogic.
  apply isColdStart_false in Hs. unfold isColdStart in Hs. rewrite Hs.
  apply differs_iff in Hr. rewrite Hr, Hp.
  rewrite ComplianceState_eqb_refl, PhoneState_eqb_refl. simpl.
  destruct (int_ge (pendingFrameCount l + 1) mf); reflexivity.
Qed.

(** Whatever branch is taken, the iteration only assigns the three machine
    variables, and the stable state is kept or replaced by the raw state. *)
Lemma logic_assigns (mf : integral) (packet : FramePacket) (raw : StateTuple) (l : Locals) :
  exists s pd c,
    localsOf (stateMachineLogic mf packet raw l) = setMachine l s pd c
    /\ (s = stableState l \/ s = raw).
Proof.
  destruct (isColdStart l) eqn:Hc.
  - apply isColdStart_true in Hc.
    destruct (ComplianceState_eqb (fst raw) unknownC) eqn:Hr.
    + apply ComplianceState_eqb_eq in Hr. rewrite logic_cold_wait by assumption.
      exists (stableState l), (pendingState l), (pendingFrameCount l).
      split; [destruct l; reflexivity | now left].
    + apply ComplianceState_eqb_neq in Hr. rewrite logic_cold_adopt by assumption.
      eexists _, _, _. split; [reflexivity | now right].
  - apply isColdStart_false in Hc.
    destruct (StateTuple_eqb raw (stableState l)) eqn:He.
    + apply StateTuple_eqb_eq in He. rewrite logic_matches_stable by assumption.
      eexists _, _, _. split; [reflexivity | now left].
    + assert (Hne : raw <> stableState l).
      { intros E. apply StateTuple_eqb_eq in E. congruence. }
      destruct (pendingState l) as [q|] eqn:Hp.
      * destruct (StateTuple_eqb q raw) eqn:Hq.
        -- apply StateTuple_eqb_eq in Hq. subst q.
           rewrite logic_same_pending by assumption.
           destruct (int_ge _ _); eexists _, _, _; (split; [reflexivity|]); auto.
        -- rewrite logic_new_pending; try assumption.
           ++ eexists _, _, _. split; [reflexivity | now left].
           ++ rewrite Hp. intros [= E]. apply StateTuple_eqb_eq in E. congruence.
      * rewrite logic_new_pending; try assumption.
        -- eexists _, _, _. split; [reflexivity | now left].
        -- rewrite Hp. discriminate.
Qed.

(** ** One iteration *)

Lemma loopBody_unfold (t d : number) (mf : integral) (l : Locals) (packet : FramePacket) :
  loopBody t d mf l packet =
    andThen (stateMachineLogic mf packet (rawStateOf t packet)
               (updateStats l (rawStateOf t packet)))
      (fun l2 => Next (pushPacket l2
         (processedPacket d packet (map (recomputePerson t) (persons packet)) l2))).
Proof. reflexivity. Qed.

Lemma loopBody_assigns (t d : number) (mf : integral) (l : Locals) (packet : FramePacket) :
  let l' := localsOf (loopBody t d mf l packet) in
  (stableState l' = stableState l \/ stableState l' = rawStateOf t packet)
  /\ events l' = events l
  /\ phoneFrames l' =
       phoneFrames l + (if existsb (phoneFlag t) (persons packet) then 1 else 0).
Proof.
  rewrite loopBody_unfold.
  destruct (logic_assigns mf packet (rawStateOf t packet)
              (updateStats l (rawStateOf t packet))) as (s & pd & c & E & Hs).
  assert (Hph : phoneFrames (updateStats l (rawStateOf t packet)) =
                phoneFrames l + (if existsb (phoneFlag t) (persons packet) then 1 else 0)).
  { unfold updateStats; cbn [phoneFrames]. rewrite rawPhone_cases.
    destruct (existsb _ _); simpl; lia. }
  destruct (stateMachineLogic _ _ _ _) as [l2|e l2]; simpl in *; subst l2; simpl;
    (split; [exact Hs|]); (split; [reflexivity | exact Hph]).
Qed.

Lemma loop_app (t d : number) (mf : integral) (l : Locals) (ps qs : list FramePacket) :
  loop t d mf l (ps ++ qs) = andThen (loop t d mf l ps) (fun l' => loop t d mf l' qs).
Proof.
  revert l. induction ps as [|p ps IH]; intros l; simpl; [reflexivity|].
  destruct (loopBody t d mf l p) as [l1|e l1]; simpl; [apply IH | reflexivity].
Qed.

Lemma stableTrace_app (t d : number) (mf : integral) (l l' : Locals)
    (ps qs : list FramePacket) :
  loop t d mf l ps = Next l' ->
  stableTrace t d mf l (ps ++ qs) = stableTrace t d mf l ps ++ stableTrace t d mf l' qs.
Proof.
  revert l. induction ps as [|p ps IH]; intros l; simpl.
  - intros [= ->]. reflexivity.
  - destruct (loopBody t d mf l p) as [l1|e l1]; simpl; [|discriminate].
    intros H. now rewrite (IH _ H).
Qed.

(** ** The counters *)

Lemma phoneFrames_loop (t d : number) (mf : integral) (ps : list FramePacket) :
  forall l l', loop t d mf l ps = Next l' ->
  phoneFrames l' = phoneFrames l + phoneFrameCount t ps
  /\ events l' = events l.
Proof.
  induction ps as [|p ps IH]; intros l l'; simpl.
  - intros [= ->]. unfold phoneFrameCount, filter_length; simpl. split; [lia | reflexivity].
  - pose proof (loopBody_assigns t d mf l p) as (_ & Hev & Hph).
    destruct (loopBody t d mf l p) as [l1|e l1]; simpl in *; [|discriminate].
    intros H. destruct (IH _ _ H) as [H1 H2]. rewrite H1, H2, Hph, Hev.
    split; [|reflexivity].
    unfold phoneFrameCount, filter_length; simpl.
    destruct (existsb (phoneFlag t) (persons p)); simpl List.length; lia.
Qed.

Lemma simulateDebounce_phoneFrames (t d : number) (ps : list FramePacket)
    (r : SimulationResult.t) :
  simulateDebounce ps t d = Normal r ->
  SimulationStats.phoneFrames (SimulationResult.stats r) = phoneFrameCount t ps.
Proof.
  unfold simulateDebounce. destruct ps as [|p ps].
  - intros [= <-]. reflexivity.
  - cbn [List.length Nat.eqb].
    destruct (loop t d (minFramesOf d) initialLocals (p :: ps)) as [l|e l] eqn:E;
      [|discriminate].
    intros [= <-]. cbn [SimulationResult.stats SimulationStats.phoneFrames].
    apply phoneFrames_loop in E. destruct E as [E _]. rewrite E. reflexivity.
Qed.

Lemma phoneFlag_monotone (t1 t2 : number) (p : PersonAnalysis) :
  le t1 t2 = true -> phoneFlag t1 p = true -> phoneFlag t2 p = true.
Proof.
  unfold phoneFlag, recomputePhoneForPerson. intros Hle.
  destruct (phone_heuristic p) as [h|]; [|discriminate].
  intros H. exact (lt_le_trans _ _ _ H Hle).
Qed.

Lemma existsb_monotone {A : Type} (f g : A -> bool) (xs : list A) :
  (forall x, f x = true -> g x = true) -> existsb f xs = true -> existsb g xs = true.
Proof.
  intros M. rewrite !existsb_exists. intros (x & Hin & Hx). exists x. auto.
Qed.

Lemma filter_length_monotone {A : Type} (f g : A -> bool) (xs : list A) :
  (forall x, f x = true -> g x = true) -> filter_length f xs <= filter_length g xs.
Proof.
  intros M. unfold filter_length. apply inj_le.
  induction xs as [|x xs IH]; simpl; [lia|].
  destruct (f x) eqn:Ef.
  - rewrite (M _ Ef). simpl. lia.
  - destruct (g x); simpl; lia.
Qed.

Lemma phoneFrameCount_monotone (t1 t2 : number) (ps : list FramePacket) :
  le t1 t2 = true -> phoneFrameCount t1 ps <= phoneFrameCount t2 ps.
Proof.
  intros Hle. apply filter_length_monotone. intros packet.
  apply existsb_monotone. intros p. now apply phoneFlag_monotone.
Qed.

(* ================================================================== *)
(** ** Empty input and comparison *)

(** C8. Empty input is not an error: for every threshold and debounce
    duration, [simulateDebounce] on the empty frame sequence returns
    normally, with an empty processed sequence, an empty event list and
    statistics whose five counters are all 0. *)
Theorem simulateDebounce_empty (phoneThreshold debounceDuration : number) :
  simulateDebounce [] phoneThreshold debounceDuration =
    Normal {| SimulationResult.packets := [];
              SimulationResult.events := [];
              SimulationResult.stats :=
                {| SimulationStats.totalFrames := 0;
                   SimulationStats.compliantFrames := 0;
                   SimulationStats.nonCompliantFrames := 0;
                   SimulationStats.phoneFrames := 0;
                   SimulationStats.totalCommits := 0 |} |}.
Proof. reflexivity. Qed.

(** C9. Comparison deltas: [compareParameters baseline tuned] returns
    [phoneFramesChange = tuned.phoneFrames - baseline.phoneFrames] and
    [eventsChange = tuned.totalCommits - baseline.totalCommits], keeps the
    two statistics, and swapping the arguments negates each delta. *)
Theorem compareParameters_deltas (baselineStats tunedStats : SimulationStats.t) :
  let forward := compareParameters baselineStats tunedStats in
  let backward := compareParameters tunedStats baselineStats in
  Comparison.phoneFramesChange (Comparison.delta forward)
    = SimulationStats.phoneFrames tunedStats - SimulationStats.phoneFrames baselineStats
  /\ Comparison.eventsChange (Comparison.delta forward)
    = SimulationStats.totalCommits tunedStats - SimulationStats.totalCommits baselineStats
  /\ Comparison.stats (Comparison.baseline forward) = baselineStats
  /\ Comparison.stats (Comparison.tuned forward) = tunedStats
  /\ Comparison.phoneFramesChange (Comparison.delta forward)
    = - Comparison.phoneFramesChange (Comparison.delta backward)
  /\ Comparison.eventsChange (Comparison.delta forward)
    = - Comparison.eventsChange (Comparison.delta backward).
Proof. simpl. repeat split; lia. Qed.

(* ================================================================== *)
(** ** The raw signal *)

Lemma existsb_false_iff {A : Type} (f : A -> bool) (xs : list A) :
  existsb f xs = false <-> ~ exists x, In x xs /\ f x = true.
Proof.
  rewrite <- existsb_exists. destruct (existsb f xs); split; congruence.
Qed.

(** C6. Raw signal derivation: a person with a measurement is flagged iff
    its [min_distance] is strictly below the threshold (a distance equal to
    the threshold is not flagged), and the rebuilt person records exactly
    that flag and the new threshold; the recomputed [phone_count] of the
    frame (in [simulateDebounce] and in [recomputeWithThreshold]) is the
    number of flagged persons; the raw compliance is Unknown
    iff the frame's person count [metrics.total_persons] is 0 (for a frame
    whose count agrees with its person list: iff the list is empty), and
    otherwise Compliant iff some person has [rail_hit_test.any_hit];
    the raw phone category is Phone iff some person is flagged. *)
Theorem raw_signal_derivation (phoneThreshold debounceDuration : number)
    (packet : FramePacket) (l : Locals) :
  let raw := rawStateOf phoneThreshold packet in
  (forall p h, phone_heuristic p = Some h ->
     phoneFlag phoneThreshold p = lt (min_distance h) phoneThreshold
     /\ (SFeqb (min_distance h) phoneThreshold = true -> phoneFlag phoneThreshold p = false)
     /\ exists h', phone_heuristic (recomputePerson phoneThreshold p) = Some h'
          /\ is_phone_talking h' = lt (min_distance h) phoneThreshold
          /\ min_distance h' = min_distance h
          /\ threshold h' = phoneThreshold)
  /\ phone_count (metrics (processedPacket debounceDuration packet
                    (map (recomputePerson phoneThreshold) (persons packet)) l))
     = filter_length (phoneFlag phoneThreshold) (persons packet)
  /\ map (fun p => phone_count (metrics p)) (recomputeWithThreshold [packet] phoneThreshold)
     = [filter_length (phoneFlag phoneThreshold) (persons packet)]
  /\ (fst raw = unknownC <-> total_persons (metrics packet) = 0)
  /\ (total_persons (metrics packet) = Z.of_nat (List.length (persons packet)) ->
      (fst raw = unknownC <-> persons packet = []))
  /\ (total_persons (metrics packet) <> 0 ->
      (fst raw = compliant <-> exists p, In p (persons packet) /\ railTruthy p = true)
      /\ (fst raw = non_compliant <->
           ~ exists p, In p (persons packet) /\ railTruthy p = true))
  /\ (snd raw = phone <->
       exists p, In p (persons packet) /\ phoneFlag phoneThreshold p = true)
  /\ (snd raw = no_phone <->
       ~ exists p, In p (persons packet) /\ phoneFlag phoneThreshold p = true).
Proof.
  intros raw. subst raw.
  assert (Hunk : fst (rawStateOf phoneThreshold packet) = unknownC
                 <-> total_persons (metrics packet) = 0).
  { rewrite rawCompliance_cases. destruct (Z.eqb_spec (total_persons (metrics packet)) 0).
    - tauto.
    - destruct (existsb _ _); split; (congruence || contradiction). }
  split; [|split; [|split; [|split; [|split; [|split; [|split]]]]]].
  - intros p h Hh. unfold phoneFlag. rewrite Hh. simpl.
    split; [reflexivity|]. split; [apply eq_not_lt|].
    unfold recomputePerson. rewrite Hh. simpl. eexists. split; [reflexivity|].
    simpl. auto.
  - simpl. apply phoneCount_recomputed.
  - simpl. now rewrite phoneCount_recomputed.
  - exact Hunk.
  - intros Hlen. rewrite Hunk, Hlen.
    destruct (persons packet); simpl; split; (reflexivity || discriminate || lia).
  - intros Hn. rewrite rawCompliance_cases.
    destruct (Z.eqb_spec (total_persons (metrics packet)) 0); [contradiction|].
    destruct (existsb railTruthy (persons packet)) eqn:E.
    + apply existsb_exists in E. split; split; (tauto || discriminate || auto).
    + apply existsb_false_iff in E. split; split; (tauto || discriminate || auto).
  - rewrite rawPhone_cases.
    destruct (existsb (phoneFlag phoneThreshold) (persons packet)) eqn:E.
    + apply existsb_exists in E. tauto.
    + apply existsb_false_iff in E. split; [discriminate | contradiction].
  - rewrite rawPhone_cases.
    destruct (existsb (phoneFlag phoneThreshold) (persons packet)) eqn:E.
    + apply existsb_exists in E. split; [discriminate | contradiction].
    + apply existsb_false_iff in E. tauto.
Qed.

(** C7. Monotonicity in the phone threshold: for one frame sequence and
    one debounce duration, and thresholds [t1 <= t2], the [phoneFrames] of
    the statistics returned with [t2] is at least the [phoneFrames]
    returned with [t1]. *)
Theorem phoneFrames_monotone_in_threshold (packets : list FramePacket)
    (debounceDuration t1 t2 : number) (r1 r2 : SimulationResult.t) :
  le t1 t2 = true ->
  simulateDebounce packets t1 debounceDuration = Normal r1 ->
  simulateDebounce packets t2 debounceDuration = Normal r2 ->
  SimulationStats.phoneFrames (SimulationResult.stats r1)
  <= SimulationStats.phoneFrames (SimulationResult.stats r2).
Proof.
  intros Hle H1 H2.
  rewrite (simulateDebounce_phoneFrames _ _ _ _ H1).
  rewrite (simulateDebounce_phoneFrames _ _ _ _ H2).
  now apply phoneFrameCount_monotone.
Qed.

(** With a wrist-to-ear distance of 0.04, the thresholds 0.03 and 0.05 give
    0 and 2 phone frames. *)
Lemma phoneFrames_monotone_in_threshold_witness :
  le near DEFAULT_PHONE_THRESHOLD = true
  /\ SimulationStats.phoneFrames
       (SimulationResult.stats (returned (simulateDebounce handNearEar near half))) = 0
  /\ SimulationStats.phoneFrames
       (SimulationResult.stats
          (returned (simulateDebounce handNearEar DEFAULT_PHONE_THRESHOLD half))) = 2
  /\ SimulationStats.phoneFrames
       (SimulationResult.stats (returned (simulateDebounce handNearEar near half)))
     <= SimulationStats.phoneFrames
          (SimulationResult.stats
             (returned (simulateDebounce handNearEar DEFAULT_PHONE_THRESHOLD half))).
Proof.
  split; [reflexivity|]. split; [reflexivity|]. split; [reflexivity|].
  apply (phoneFrames_monotone_in_threshold handNearEar half near DEFAULT_PHONE_THRESHOLD);
    reflexivity.
Defined.

(** ** Persons without a phone measurement *)

Lemma phoneFlag_measured (t : number) (p : PersonAnalysis) :
  phoneFlag t p = true -> measured p = true.
Proof.
  unfold phoneFlag, measured. destruct (phone_heuristic p); [reflexivity | discriminate].
Qed.

Lemma anyFlag_measured (t : number) (ps : list PersonAnalysis) :
  existsb (phoneFlag t) ps = existsb (phoneFlag t) (filter measured ps).
Proof.
  induction ps as [|p ps IH]; simpl; [reflexivity|].
  destruct (measured p) eqn:M; simpl; rewrite IH; [reflexivity|].
  destruct (phoneFlag t p) eqn:F; [|reflexivity].
  apply phoneFlag_measured in F. congruence.
Qed.

Lemma flagCount_measured (t : number) (ps : list PersonAnalysis) :
  filter_length (phoneFlag t) ps = filter_length (phoneFlag t) (filter measured ps).
Proof.
  unfold filter_length. f_equal.
  induction ps as [|p ps IH]; simpl; [reflexivity|].
  destruct (measured p) eqn:M; simpl.
  - destruct (phoneFlag t p); simpl; now rewrite IH.
  - destruct (phoneFlag t p) eqn:F; [|exact IH].
    apply phoneFlag_measured in F. congruence.
Qed.

(** C10. A person without a phone measurement ([phone_heuristic] null):
    [recomputePhoneForPerson] returns false for every threshold, so the
    person is never flagged; the recomputed [phone_count] of a frame and its
    raw phone category are those of its measured persons alone; and the
    [phoneFrames] counter of an iteration, and of every returned run, counts
    only frames in which a measured person is under the threshold. *)
Theorem unmeasured_person_never_flagged (phoneThreshold debounceDuration : number) :
  recomputePhoneForPerson None phoneThreshold = false
  /\ (forall p, phone_heuristic p = None ->
        phoneFlag phoneThreshold p = false
        /\ phoneTruthy (recomputePerson phoneThreshold p) = false)
  /\ (forall packet l,
        phone_count (metrics (processedPacket debounceDuration packet
                       (map (recomputePerson phoneThreshold) (persons packet)) l))
        = filter_length (phoneFlag phoneThreshold) (filter measured (persons packet)))
  /\ (forall packet,
        snd (rawStateOf phoneThreshold packet) = phone <->
        exists p, In p (persons packet) /\ measured p = true
                  /\ phoneFlag phoneThreshold p = true)
  /\ (forall minFrames l packet,
        phoneFrames (localsOf (loopBody phoneThreshold debounceDuration minFrames l packet))
        = phoneFrames l
          + (if existsb (phoneFlag phoneThreshold) (filter measured (persons packet))
             then 1 else 0))
  /\ (forall packets r,
        simulateDebounce packets phoneThreshold debounceDuration = Normal r ->
        SimulationStats.phoneFrames (SimulationResult.stats r)
        = filter_length
            (fun packet =>
               existsb (phoneFlag phoneThreshold) (filter measured (persons packet)))
            packets).
Proof.
  split; [reflexivity|]. split; [|split; [|split; [|split]]].
  - intros p Hp. rewrite phoneTruthy_recomputePerson. unfold phoneFlag. rewrite Hp.
    split; reflexivity.
  - intros packet l. simpl. rewrite phoneCount_recomputed. apply flagCount_measured.
  - intros packet. rewrite rawPhone_cases.
    destruct (existsb (phoneFlag phoneThreshold) (persons packet)) eqn:E.
    + apply existsb_exists in E. destruct E as (p & Hin & Hp).
      split; [|reflexivity]. intros _. exists p.
      split; [exact Hin|]. split; [now apply phoneFlag_measured with phoneThreshold | exact Hp].
    + apply existsb_false_iff in E. split; [discriminate|].
      intros (p & Hin & _ & Hp). exfalso. apply E. now exists p.
  - intros minFrames l packet.
    pose proof (loopBody_assigns phoneThreshold debounceDuration minFrames l packet)
      as (_ & _ & H).
    rewrite H. now rewrite anyFlag_measured.
  - intros packets r H. rewrite (simulateDebounce_phoneFrames _ _ _ _ H).
    apply filter_length_ext. intros packet. apply anyFlag_measured.
Qed.

(** ** The machine variables across one iteration *)

Lemma machine_updateStats (l : Locals) (raw : StateTuple) :
  stableState (updateStats l raw) = stableState l
  /\ pendingState (updateStats l raw) = pendingState l
  /\ pendingFrameCount (updateStats l raw) = pendingFrameCount l
  /\ events (updateStats l raw) = events l.
Proof. repeat split. Qed.

Lemma state_eq_dec (a b : StateTuple) : {a = b} + {a <> b}.
Proof. repeat decide equality. Defined.

Lemma pending_eq_dec (a b : option StateTuple) : {a = b} + {a <> b}.
Proof. repeat decide equality. Defined.

Lemma compliance_eq_dec (a b : ComplianceState) : {a = b} + {a <> b}.
Proof. decide equality. Defined.

Lemma loopBody_Next (t d : number) (mf : integral) (l l' : Locals) (packet : FramePacket) :
  loopBody t d mf l packet = Next l' ->
  NormalStep mf (rawStateOf t packet) l l'
  /\ events l' = events l
  /\ processedPackets l' = processedPackets l ++
       [processedPacket d packet (map (recomputePerson t) (persons packet)) l'].
Proof.
  rewrite loopBody_unfold.
  set (raw := rawStateOf t packet). set (l1 := updateStats l raw).
  destruct (machine_updateStats l raw) as (Es & Ep & Ec & Ee). fold l1 in Es, Ep, Ec, Ee.
  destruct (state_eq_dec (stableState l) (unknownC, unknownP)) as [Hu|Hu].
  - destruct (compliance_eq_dec (fst raw) unknownC) as [Hr|Hr].
    + rewrite logic_cold_wait by congruence. simpl. intros [= <-]. simpl.
      split; [apply step_wait; simpl; auto | auto].
    + rewrite logic_cold_adopt by congruence. simpl. intros [= <-]. simpl.
      split; [apply step_adopt; simpl; auto | auto].
  - destruct (state_eq_dec raw (stableState l)) as [Hr|Hr].
    + rewrite logic_matches_stable by congruence. simpl. intros [= <-]. simpl.
      split; [apply step_clear; simpl; auto | auto].
    + destruct (pending_eq_dec (pendingState l) (Some raw)) as [Hp|Hp].
      * rewrite logic_same_pending by congruence. rewrite Ec.
        destruct (int_ge (pendingFrameCount l + 1) mf) eqn:G; simpl; [discriminate|].
        intros [= <-]. simpl.
        split; [apply step_count; simpl; auto | auto].
      * rewrite logic_new_pending by congruence. simpl. intros [= <-]. simpl.
        split; [apply step_candidate; simpl; auto | auto].
Qed.

(** An iteration raises exactly when it reaches the commit of lines 149-155. *)
Lemma loopBody_Raised (t d : number) (mf : integral) (l l' : Locals) (e : JsError)
    (packet : FramePacket) :
  loopBody t d mf l packet = Raised e l' <->
  (stableState l <> (unknownC, unknownP)
   /\ rawStateOf t packet <> stableState l
   /\ pendingState l = Some (rawStateOf t packet)
   /\ int_ge (pendingFrameCount l + 1) mf = true
   /\ e = ReferenceError "commitEvent"
   /\ l' = setMachine (updateStats l (rawStateOf t packet)) (rawStateOf t packet) None 0).
Proof.
  rewrite loopBody_unfold.
  set (raw := rawStateOf t packet). set (l1 := updateStats l raw).
  destruct (machine_updateStats l raw) as (Es & Ep & Ec & Ee). fold l1 in Es, Ep, Ec, Ee.
  destruct (state_eq_dec (stableState l) (unknownC, unknownP)) as [Hu|Hu].
  - destruct (compliance_eq_dec (fst raw) unknownC) as [Hr|Hr].
    + rewrite logic_cold_wait by congruence. simpl. split; [discriminate | tauto].
    + rewrite logic_cold_adopt by congruence. simpl. split; [discriminate | tauto].
  - destruct (state_eq_dec raw (stableState l)) as [Hr|Hr].
    + rewrite logic_matches_stable by congruence. simpl. split; [discriminate | tauto].
    + destruct (pending_eq_dec (pendingState l) (Some raw)) as [Hp|Hp].
      * rewrite logic_same_pending by congruence. rewrite Ec.
        destruct (int_ge (pendingFrameCount l + 1) mf) eqn:G; simpl.
        -- split.
           ++ intros [= <- <-]. auto 10.
           ++ intros (_ & _ & _ & _ & -> & ->). reflexivity.
        -- split; [discriminate|]. intros (_ & _ & _ & F & _). discriminate.
      * rewrite logic_new_pending by congruence. simpl. split; [discriminate | tauto].
Qed.

(** ** Whole runs *)

Lemma simulateDebounce_Next (t d : number) (ps : list FramePacket) (l : Locals) :
  ps <> [] ->
  loop t d (minFramesOf d) initialLocals ps = Next l ->
  simulateDebounce ps t d =
    Normal {| SimulationResult.packets := processedPackets l;
              SimulationResult.events := events l;
              SimulationResult.stats :=
                {| SimulationStats.totalFrames := Z.of_nat (List.length ps);
                   SimulationStats.compliantFrames := compliantFrames l;
                   SimulationStats.nonCompliantFrames := nonCompliantFrames l;
                   SimulationStats.phoneFrames := phoneFrames l;
                   SimulationStats.totalCommits := Z.of_nat (List.length (events l)) |} |}.
Proof.
  intros Hne H. unfold simulateDebounce.
  destruct ps as [|p ps]; [contradiction|]. cbn [List.length Nat.eqb].
  now rewrite H.
Qed.

Lemma simulateDebounce_Raised (t d : number) (ps : list FramePacket) (e : JsError)
    (l : Locals) :
  loop t d (minFramesOf d) initialLocals ps = Raised e l ->
  simulateDebounce ps t d = Throw e.
Proof.
  intros H. unfold simulateDebounce.
  destruct ps as [|p ps]; [discriminate|]. cbn [List.length Nat.eqb].
  now rewrite H.
Qed.

(** The processed packets carry the stable states of the trace. *)
Lemma processed_current (t d : number) (mf : integral) (ps : list FramePacket) :
  forall l l', loop t d mf l ps = Next l' ->
  map currentOf (processedPackets l')
  = map currentOf (processedPackets l) ++ map Some (stableTrace t d mf l ps).
Proof.
  induction ps as [|p ps IH]; intros l l'; simpl.
  - intros [= ->]. now rewrite app_nil_r.
  - destruct (loopBody t d mf l p) as [l1|e l1] eqn:E; simpl; [|discriminate].
    intros H. rewrite (IH _ _ H).
    apply loopBody_Next in E. destruct E as (_ & _ & Epk).
    rewrite Epk, map_app, <- app_assoc. reflexivity.
Qed.

(** ** Cold start *)

Lemma cold_prefix (t d : number) (mf : integral) (pre : list FramePacket) :
  Forall (fun p => fst (rawStateOf t p) = unknownC) pre ->
  forall l, stableState l = (unknownC, unknownP) ->
  exists l',
    loop t d mf l pre = Next l'
    /\ stableState l' = (unknownC, unknownP)
    /\ pendingState l' = pendingState l
    /\ pendingFrameCount l' = pendingFrameCount l
    /\ events l' = events l
    /\ stableTrace t d mf l pre = repeat (unknownC, unknownP) (List.length pre).
Proof.
  induction 1 as [|p pre Hp _ IH]; intros l Hl; simpl.
  - exists l. auto 10.
  - destruct (loopBody t d mf l p) as [l1|e l1] eqn:E.
    + apply loopBody_Next in E. destruct E as (St & Ev & _).
      destruct St as [? Hr| ? ? Hs Hpd Hc | Hs | Hs | Hs]; try congruence.
      destruct (IH l1) as (l' & R & S' & P' & C' & E' & T'); [congruence|].
      exists l'. simpl. rewrite R, T', Hs, Hl.
      repeat split; congruence.
    + apply loopBody_Raised in E. destruct E as (Hs & _). contradiction.
Qed.

(** C5. Cold start has no debounce: when every frame before [f] has raw
    compliance Unknown and [f] is the first frame whose raw compliance is not
    Unknown, the stable state is (Unknown, Unknown) up to [f] and becomes the
    full raw state of [f] at [f] itself, nothing is pending, and no event
    has been emitted; the run over these frames returns normally with an
    empty event list. *)
Theorem cold_start_adopts_first_observation (phoneThreshold debounceDuration : number)
    (pre : list FramePacket) (f : FramePacket) :
  Forall (fun p => fst (rawStateOf phoneThreshold p) = unknownC) pre ->
  fst (rawStateOf phoneThreshold f) <> unknownC ->
  let minFrames := minFramesOf debounceDuration in
  exists l r,
    loop phoneThreshold debounceDuration minFrames initialLocals (pre ++ [f]) = Next l
    /\ stableState l = rawStateOf phoneThreshold f
    /\ pendingState l = None
    /\ pendingFrameCount l = 0
    /\ events l = []
    /\ stableTrace phoneThreshold debounceDuration minFrames initialLocals (pre ++ [f])
       = repeat (unknownC, unknownP) (List.length pre) ++ [rawStateOf phoneThreshold f]
    /\ simulateDebounce (pre ++ [f]) phoneThreshold debounceDuration = Normal r
    /\ SimulationResult.events r = []
    /\ SimulationStats.totalCommits (SimulationResult.stats r) = 0
    /\ map currentOf (SimulationResult.packets r)
       = map Some (repeat (unknownC, unknownP) (List.length pre)
                   ++ [rawStateOf phoneThreshold f])
    /\ (forall post,
          stableTrace phoneThreshold debounceDuration minFrames initialLocals
            ((pre ++ [f]) ++ post)
          = repeat (unknownC, unknownP) (List.length pre)
            ++ rawStateOf phoneThreshold f
               :: stableTrace phoneThreshold debounceDuration minFrames l post).
Proof.
  intros Hpre Hf minFrames.
  destruct (cold_prefix phoneThreshold debounceDuration minFrames pre Hpre initialLocals
              eq_refl) as (l0 & R0 & S0 & P0 & C0 & E0 & T0).
  simpl in P0, C0, E0.
  destruct (loopBody phoneThreshold debounceDuration minFrames l0 f) as [l|e l] eqn:E.
  - pose proof E as E'. apply loopBody_Next in E'. destruct E' as (St & Ev & _).
    destruct St as [_ _ Hs Hpd Hc | _ Hr | Hs | Hs | Hs]; try congruence.
    assert (RL : loop phoneThreshold debounceDuration minFrames initialLocals (pre ++ [f])
                 = Next l).
    { rewrite loop_app, R0. simpl. now rewrite E. }
    assert (TL : stableTrace phoneThreshold debounceDuration minFrames initialLocals
                   (pre ++ [f])
                 = repeat (unknownC, unknownP) (List.length pre)
                   ++ [rawStateOf phoneThreshold f]).
    { rewrite (stableTrace_app _ _ _ _ _ _ _ R0), T0. simpl. now rewrite E, Hs. }
    assert (Hne : pre ++ [f] <> []) by (destruct pre; discriminate).
    eexists l, _. split; [exact RL|].
    split; [exact Hs|]. split; [congruence|]. split; [congruence|].
    split; [congruence|]. split; [exact TL|].
    split; [apply (simulateDebounce_Next _ _ _ _ Hne RL)|]. simpl.
    split; [congruence|]. split; [rewrite Ev, E0; reflexivity|].
    split; [rewrite (processed_current _ _ _ _ _ _ RL), TL; reflexivity|].
    intros post. rewrite (stableTrace_app _ _ _ _ _ _ _ RL), TL, <- app_assoc.
    reflexivity.
  - apply loopBody_Raised in E. destruct E as (Hs & _). contradiction.
Qed.

(** Two frames showing nobody, then a person off the rail. *)
Lemma cold_start_adopts_first_observation_witness :
  exists l r,
    loop DEFAULT_PHONE_THRESHOLD half (minFramesOf half) initialLocals
      (framesFrom 0 [[]; []] ++ [frameOf 2 offRail]) = Next l
    /\ stableState l = rawStateOf DEFAULT_PHONE_THRESHOLD (frameOf 2 offRail)
    /\ pendingState l = None
    /\ pendingFrameCount l = 0
    /\ events l = []
    /\ stableTrace DEFAULT_PHONE_THRESHOLD half (minFramesOf half) initialLocals
         (framesFrom 0 [[]; []] ++ [frameOf 2 offRail])
       = repeat (unknownC, unknownP) (List.length (framesFrom 0 [[]; []]))
         ++ [rawStateOf DEFAULT_PHONE_THRESHOLD (frameOf 2 offRail)]
    /\ simulateDebounce (framesFrom 0 [[]; []] ++ [frameOf 2 offRail])
         DEFAULT_PHONE_THRESHOLD half = Normal r
    /\ SimulationResult.events r = []
    /\ SimulationStats.totalCommits (SimulationResult.stats r) = 0
    /\ map currentOf (SimulationResult.packets r)
       = map Some (repeat (unknownC, unknownP) (List.length (framesFrom 0 [[]; []]))
                   ++ [rawStateOf DEFAULT_PHONE_THRESHOLD (frameOf 2 offRail)])
    /\ (forall post,
          stableTrace DEFAULT_PHONE_THRESHOLD half (minFramesOf half) initialLocals
            ((framesFrom 0 [[]; []] ++ [frameOf 2 offRail]) ++ post)
          = repeat (unknownC, unknownP) (List.length (framesFrom 0 [[]; []]))
            ++ rawStateOf DEFAULT_PHONE_THRESHOLD (frameOf 2 offRail)
               :: stableTrace DEFAULT_PHONE_THRESHOLD half (minFramesOf half) l post).
Proof.
  apply (cold_start_adopts_first_observation DEFAULT_PHONE_THRESHOLD half
           (framesFrom 0 [[]; []]) (frameOf 2 offRail)).
  - repeat constructor.
  - vm_compute. discriminate.
Defined.

(** ** Transient changes *)

(** While the stable state is still (Unknown, Unknown) nothing is pending. *)
Lemma cold_has_no_pending (t d : number) (mf : integral) (ps : list FramePacket) :
  forall l l',
    (stableState l = (unknownC, unknownP) -> pendingState l = None) ->
    loop t d mf l ps = Next l' ->
    stableState l' = (unknownC, unknownP) -> pendingState l' = None.
Proof.
  induction ps as [|p ps IH]; intros l l' K; simpl.
  - intros [= ->]. exact K.
  - destruct (loopBody t d mf l p) as [l1|e l1] eqn:E; simpl; [|discriminate].
    apply IH. apply loopBody_Next in E. destruct E as (St & _). intros U.
    destruct St as [Hu Hr Hs Hp Hc | Hu Hr Hs Hp Hc | Hu Hr Hs Hp Hc
                   | Hu Hr Hp0 Hs Hp Hc | Hu Hr Hp0 G Hs Hp Hc]; try congruence.
    + exfalso. apply Hr. rewrite <- Hs. rewrite U. reflexivity.
    + rewrite Hp. now apply K.
Qed.

(** After an iteration, a pending candidate is the raw state of its frame. *)
Lemma pending_is_last_raw (t d : number) (mf : integral) (l l' : Locals) (p : FramePacket) :
  (stableState l = (unknownC, unknownP) -> pendingState l = None) ->
  loopBody t d mf l p = Next l' ->
  pendingState l' = None \/ pendingState l' = Some (rawStateOf t p).
Proof.
  intros K E. apply loopBody_Next in E. destruct E as (St & _).
  destruct St as [Hu Hr Hs Hp Hc | Hu Hr Hs Hp Hc | Hu Hr Hs Hp Hc
                 | Hu Hr Hp0 Hs Hp Hc | Hu Hr Hp0 G Hs Hp Hc]; auto;
    left; rewrite Hp; auto.
Qed.

Lemma run_below_minFrames (t d : number) (n : Z) (s : StateTuple) (c' : ComplianceState)
    (flip : list FramePacket) :
  s <> (unknownC, unknownP) -> c' <> fst s ->
  Forall (fun p => fst (rawStateOf t p) = c') flip ->
  forall l,
    stableState l = s ->
    Z.of_nat (List.length flip) < n ->
    (forall q, pendingState l = Some q -> fst q = c' ->
               pendingFrameCount l + Z.of_nat (List.length flip) < n) ->
    exists l',
      loop t d (Int n) l flip = Next l'
      /\ stableState l' = s
      /\ events l' = events l
      /\ stableTrace t d (Int n) l flip = repeat s (List.length flip).
Proof.
  intros Hs Hc. induction 1 as [|p flip Hp _ IH]; intros l Hl Hlen Hpend.
  - exists l. simpl. auto.
  - cbn [List.length] in Hlen, Hpend. rewrite Nat2Z.inj_succ in Hlen, Hpend.
    simpl. destruct (loopBody t d (Int n) l p) as [l1|e l1] eqn:E.
    + apply loopBody_Next in E. destruct E as (St & Ev & _).
      assert (Hl1 : stableState l1 = s /\
                (forall q, pendingState l1 = Some q -> fst q = c' ->
                           pendingFrameCount l1 + Z.of_nat (List.length flip) < n)).
      { destruct St as [Hu Hr Hs1 Hp1 Hc1 | Hu Hr Hs1 Hp1 Hc1 | Hu Hr Hs1 Hp1 Hc1
                       | Hu Hr Hp0 Hs1 Hp1 Hc1 | Hu Hr Hp0 G Hs1 Hp1 Hc1];
          try congruence.
        - split; [congruence|]. intros q _ _. rewrite Hc1. lia.
        - split; [congruence|]. intros q _ _. rewrite Hc1.
          specialize (Hpend _ Hp0 Hp). lia. }
      destruct Hl1 as [Hl1 Hpend1].
      destruct (IH l1 Hl1 ltac:(lia) Hpend1) as (l' & R & S' & E' & T').
      exists l'. simpl. rewrite R, T', Hl1. repeat split; congruence.
    + exfalso. apply loopBody_Raised in E.
      destruct E as (_ & _ & Hp0 & G & _).
      specialize (Hpend _ Hp0 Hp). simpl in G. apply Z.leb_le in G. lia.
Qed.

(** C4. Debounce suppresses transients: in a run that has completed the
    frames [pre ++ [prev]] with an established stable state, where [prev]
    still had the stable compliance category, let the raw compliance flip
    to another value [c'] for the [k] frames of [flip], with
    [k < minRunLength = ceil(debounceDuration * 24)], and let frame [back]
    show the stable state again.  Then the run over all these frames
    returns normally, no event is added to those emitted before the flip,
    the stable state is the same after every frame of the flip and after
    [back], and nothing is pending after [back]. *)
Theorem transient_is_suppressed (phoneThreshold debounceDuration : number) (n : Z)
    (pre : list FramePacket) (prev : FramePacket) (flip : list FramePacket)
    (back : FramePacket) (l : Locals) (c' : ComplianceState) :
  let minFrames := minFramesOf debounceDuration in
  minFrames = Int n ->
  loop phoneThreshold debounceDuration minFrames initialLocals (pre ++ [prev]) = Next l ->
  stableState l <> (unknownC, unknownP) ->
  fst (rawStateOf phoneThreshold prev) = fst (stableState l) ->
  Forall (fun p => fst (rawStateOf phoneThreshold p) = c') flip ->
  c' <> fst (stableState l) ->
  Z.of_nat (List.length flip) < n ->
  rawStateOf phoneThreshold back = stableState l ->
  exists l' r,
    loop phoneThreshold debounceDuration minFrames initialLocals
      ((pre ++ [prev]) ++ flip ++ [back]) = Next l'
    /\ events l' = events l
    /\ stableState l' = stableState l
    /\ pendingState l' = None
    /\ pendingFrameCount l' = 0
    /\ stableTrace phoneThreshold debounceDuration minFrames initialLocals
         ((pre ++ [prev]) ++ flip ++ [back])
       = stableTrace phoneThreshold debounceDuration minFrames initialLocals (pre ++ [prev])
         ++ repeat (stableState l) (List.length flip + 1)
    /\ simulateDebounce ((pre ++ [prev]) ++ flip ++ [back])
         phoneThreshold debounceDuration = Normal r
    /\ SimulationResult.events r = events l.
Proof.
  intros minFrames Hn Hrun Hest Hprev Hflip Hc Hk Hback.
  subst minFrames. rewrite Hn in *.
  set (t := phoneThreshold) in *. set (d := debounceDuration) in *.
  (* the state before the flip has no candidate with the new compliance *)
  assert (Hpend : forall q, pendingState l = Some q -> fst q = c' ->
                    pendingFrameCount l + Z.of_nat (List.length flip) < n).
  { intros q Hq Hfst. exfalso.
    rewrite loop_app in Hrun.
    destruct (loop t d (Int n) initialLocals pre) as [l0|e l0] eqn:R0; [|discriminate].
    simpl in Hrun.
    destruct (loopBody t d (Int n) l0 prev) as [l1|e l1] eqn:E; [|discriminate].
    simpl in Hrun. injection Hrun as ->.
    assert (K : stableState l0 = (unknownC, unknownP) -> pendingState l0 = None).
    { apply (cold_has_no_pending t d (Int n) pre initialLocals l0); auto. }
    destruct (pending_is_last_raw t d (Int n) l0 l prev K E) as [N|S]; congruence. }
  destruct (run_below_minFrames t d n (stableState l) c' flip Hest Hc Hflip l eq_refl Hk Hpend)
    as (l1 & R1 & S1 & E1 & T1).
  destruct (loopBody t d (Int n) l1 back) as [l2|e l2] eqn:E.
  - pose proof E as E'. apply loopBody_Next in E'. destruct E' as (St & Ev & _).
    assert (M : stableState l2 = stableState l /\ pendingState l2 = None
                /\ pendingFrameCount l2 = 0).
    { destruct St as [Hu Hr Hs1 Hp1 Hc1 | Hu Hr Hs1 Hp1 Hc1 | Hu Hr Hs1 Hp1 Hc1
                     | Hu Hr Hp0 Hs1 Hp1 Hc1 | Hu Hr Hp0 G Hs1 Hp1 Hc1];
        try congruence.
      repeat split; congruence. }
    destruct M as (M1 & M2 & M3).
    assert (RL : loop t d (Int n) initialLocals ((pre ++ [prev]) ++ flip ++ [back]) = Next l2).
    { rewrite loop_app, Hrun. simpl. rewrite loop_app, R1. simpl. now rewrite E. }
    assert (Hne : (pre ++ [prev]) ++ flip ++ [back] <> []).
    { destruct pre; discriminate. }
    exists l2. eexists. split; [exact RL|].
    split; [congruence|]. split; [exact M1|]. split; [exact M2|]. split; [exact M3|].
    split.
    + rewrite (stableTrace_app _ _ _ _ _ _ _ Hrun). f_equal.
      rewrite (stableTrace_app _ _ _ _ _ _ _ R1), T1. simpl. rewrite E, M1.
      rewrite Nat.add_1_r. simpl. now rewrite <- repeat_cons.
    + split.
      * apply (simulateDebounce_Next t d _ l2 Hne). rewrite Hn. exact RL.
      * simpl. congruence.
  - exfalso. apply loopBody_Raised in E. destruct E as (_ & Hne & _). congruence.
Qed.

(** A person steps on the rail for three frames (1-3) and off again. *)
Lemma transient_is_suppressed_witness :
  exists r,
    simulateDebounce
      (([] ++ [frameOf 0 offRail]) ++ framesFrom 1 (repeat onRail 3) ++ [frameOf 4 offRail])
      DEFAULT_PHONE_THRESHOLD half = Normal r
    /\ SimulationResult.events r = []
    /\ map currentOf (SimulationResult.packets r)
       = repeat (Some (non_compliant, no_phone)) 5.
Proof.
  destruct (transient_is_suppressed DEFAULT_PHONE_THRESHOLD half 12
              [] (frameOf 0 offRail) (framesFrom 1 (repeat onRail 3)) (frameOf 4 offRail)
              (localsOf (loop DEFAULT_PHONE_THRESHOLD half (minFramesOf half)
                           initialLocals [frameOf 0 offRail]))
              compliant)
    as (l' & r & _ & _ & _ & _ & _ & _ & Hr & Hev).
  - reflexivity.
  - reflexivity.
  - vm_compute. discriminate.
  - reflexivity.
  - repeat constructor.
  - vm_compute. discriminate.
  - vm_compute. reflexivity.
  - reflexivity.
  - exists r. split; [exact Hr|]. split; [exact Hev|].
    assert (E : r = returned (simulateDebounce
              (([] ++ [frameOf 0 offRail]) ++ framesFrom 1 (repeat onRail 3)
               ++ [frameOf 4 offRail]) DEFAULT_PHONE_THRESHOLD half))
      by (rewrite Hr; reflexivity).
    rewrite E. reflexivity.
Defined.

(* ================================================================== *)
(** ** The stable state never forgets the phone axis *)

Lemma phone_axis_step (t d : number) (mf : integral) (l : Locals) (p : FramePacket) :
  snd (stableState l) <> unknownP ->
  snd (stableState (localsOf (loopBody t d mf l p))) <> unknownP.
Proof.
  intros H. destruct (loopBody_assigns t d mf l p) as ([E|E] & _); rewrite E.
  - exact H.
  - apply rawPhone_known.
Qed.

Lemma phone_axis_trace (t d : number) (mf : integral) (ps : list FramePacket) :
  forall l, snd (stableState l) <> unknownP ->
  Forall (fun s => snd s <> unknownP) (stableTrace t d mf l ps).
Proof.
  induction ps as [|p ps IH]; intros l H; simpl; [constructor|].
  pose proof (phone_axis_step t d mf l p H) as H1.
  destruct (loopBody t d mf l p) as [l1|e l1]; simpl in H1.
  - constructor; [exact H1 | now apply IH].
  - constructor; [exact H1 | constructor].
Qed.

Lemma phone_axis_stays_known (t d : number) (mf : integral) (ps : list FramePacket) :
  forall l, phoneStaysKnown (stableTrace t d mf l ps).
Proof.
  induction ps as [|p ps IH]; intros l i j s s' Hij Hi Hj Hs; simpl in Hi, Hj.
  - destruct i; discriminate.
  - destruct (loopBody t d mf l p) as [l1|e l1] eqn:E.
    + destruct j as [|j]; [lia|]. destruct i as [|i]; simpl in Hi, Hj.
      * injection Hi as <-.
        pose proof (phone_axis_trace t d mf ps l1 Hs) as F.
        rewrite Forall_forall in F. apply F. eapply nth_error_In; eassumption.
      * apply (IH l1 i j s s'); [lia | assumption..].
    + destruct j as [|j]; [lia|]. simpl in Hj. destruct j; discriminate.
Qed.

(** C2, as the code has it.  The stable state starts at (Unknown, Unknown),
    and once the phone axis has left Unknown it holds Unknown at no later
    frame of the run.  The compliance axis has no such protection: an
    iteration can assign Unknown to it, and does so only for a frame whose
    own raw compliance is Unknown, that is, whose [metrics.total_persons]
    is 0. *)
Theorem stable_phone_axis_stays_known (phoneThreshold debounceDuration : number)
    (packets : list FramePacket) :
  let minFrames := minFramesOf debounceDuration in
  stableState initialLocals = (unknownC, unknownP)
  /\ phoneStaysKnown
       (stableTrace phoneThreshold debounceDuration minFrames initialLocals packets)
  /\ (forall l packet,
        fst (stableState l) <> unknownC ->
        fst (stableState
               (localsOf (loopBody phoneThreshold debounceDuration minFrames l packet)))
        = unknownC ->
        fst (rawStateOf phoneThreshold packet) = unknownC
        /\ total_persons (metrics packet) = 0).
Proof.
  intros minFrames. split; [reflexivity|]. split; [apply phone_axis_stays_known|].
  intros l packet Hk Hu.
  destruct (loopBody_assigns phoneThreshold debounceDuration minFrames l packet)
    as ([E|E] & _); rewrite E in Hu; [contradiction|].
  split; [exact Hu|].
  rewrite rawCompliance_cases in Hu.
  destruct (Z.eqb_spec (total_persons (metrics packet)) 0) as [Z|Z]; [exact Z|].
  destruct (existsb _ _); discriminate.
Qed.

(** C2, as stated, fails on the compliance axis: after a person off the rail
    (frame 0) and twelve frames showing nobody, with a debounce of 0.5 s, the
    stable state is (non_compliant, no_phone) from frame 0 on and
    (Unknown, no_phone) at frame 12. *)
Lemma stable_compliance_returns_to_unknown :
  ~ complianceStaysKnown
      (stableTrace DEFAULT_PHONE_THRESHOLD half (minFramesOf half) initialLocals
         vacatedStairs).
Proof.
  intros H.
  apply (H 0%nat 12%nat (non_compliant, no_phone) (unknownC, no_phone)).
  - lia.
  - reflexivity.
  - reflexivity.
  - discriminate.
  - reflexivity.
Qed.

(* ================================================================== *)
(** ** Commits *)

(** No run that returns has emitted an event. *)
Lemma returned_run_has_no_event (t d : number) (ps : list FramePacket)
    (r : SimulationResult.t) :
  simulateDebounce ps t d = Normal r ->
  SimulationResult.events r = []
  /\ SimulationStats.totalCommits (SimulationResult.stats r) = 0.
Proof.
  unfold simulateDebounce. destruct ps as [|p ps].
  - intros [= <-]. split; reflexivity.
  - cbn [List.length Nat.eqb].
    destruct (loop t d (minFramesOf d) initialLocals (p :: ps)) as [l|e l] eqn:E;
      [|discriminate].
    intros [= <-]. apply phoneFrames_loop in E. destruct E as [_ E].
    simpl. rewrite E. split; reflexivity.
Qed.

Lemma counting_run_raises (t d : number) (n : Z) (x : StateTuple)
    (flip : list FramePacket) :
  Forall (fun p => rawStateOf t p = x) flip ->
  forall l,
    stableState l <> (unknownC, unknownP) -> x <> stableState l ->
    pendingState l = Some x -> 1 <= pendingFrameCount l ->
    flip <> [] ->
    pendingFrameCount l + Z.of_nat (List.length flip) = Z.max n 2 ->
    exists l',
      loop t d (Int n) l flip = Raised (ReferenceError "commitEvent") l'
      /\ stableState l' = x
      /\ events l' = events l.
Proof.
  induction 1 as [|p flip Hp _ IH]; intros l Hs Hx Hpd Hc Hne Hlen; [contradiction|].
  cbn [List.length] in Hlen. rewrite Nat2Z.inj_succ in Hlen. simpl.
  destruct (loopBody t d (Int n) l p) as [l1|e l1] eqn:E.
  - apply loopBody_Next in E. rewrite Hp in E. destruct E as (St & Ev & _).
    destruct St as [Hu Hr Hs1 Hp1 Hc1 | Hu Hr Hs1 Hp1 Hc1 | Hu Hr Hs1 Hp1 Hc1
                   | Hu Hr Hp0 Hs1 Hp1 Hc1 | Hu Hr Hp0 G Hs1 Hp1 Hc1];
      try congruence.
    simpl in G. apply Z.leb_gt in G.
    destruct flip as [|q flip]; [simpl in Hlen; lia|].
    destruct (IH l1) as (l' & R & S' & E'); try congruence; try lia.
    exists l'. simpl in R |- *. rewrite R. repeat split; congruence.
  - apply loopBody_Raised in E. rewrite Hp in E.
    destruct E as (_ & _ & _ & _ & -> & ->). simpl. eexists. repeat split.
Qed.

(** Every persistent change raises: from an established stable state, with
    no candidate [x] pending, [max n 2] consecutive frames of one raw state
    [x] other than the stable state end in the ReferenceError of line 155,
    raised in the last of them with the stable state already set to [x] and
    no event pushed. *)
Lemma persistent_change_raises (t d : number) (n : Z) (x : StateTuple)
    (flip : list FramePacket) (l : Locals) :
  Forall (fun p => rawStateOf t p = x) flip ->
  stableState l <> (unknownC, unknownP) -> x <> stableState l ->
  pendingState l <> Some x ->
  Z.of_nat (List.length flip) = Z.max n 2 ->
  exists l',
    loop t d (Int n) l flip = Raised (ReferenceError "commitEvent") l'
    /\ stableState l' = x
    /\ events l' = events l.
Proof.
  intros Hall Hs Hx Hpd Hlen.
  destruct Hall as [|p flip Hp Hall]; [simpl in Hlen; lia|].
  cbn [List.length] in Hlen. rewrite Nat2Z.inj_succ in Hlen. simpl.
  destruct (loopBody t d (Int n) l p) as [l1|e l1] eqn:E.
  - apply loopBody_Next in E. rewrite Hp in E. destruct E as (St & Ev & _).
    destruct St as [Hu Hr Hs1 Hp1 Hc1 | Hu Hr Hs1 Hp1 Hc1 | Hu Hr Hs1 Hp1 Hc1
                   | Hu Hr Hp0 Hs1 Hp1 Hc1 | Hu Hr Hp0 G Hs1 Hp1 Hc1];
      try congruence.
    destruct (counting_run_raises t d n x flip Hall l1) as (l' & R & S' & E');
      try congruence; try lia.
    + intros ->. simpl in Hlen. lia.
    + exists l'. simpl. rewrite R. repeat split; congruence.
  - apply loopBody_Raised in E. rewrite Hp in E. destruct E as (_ & _ & F & _).
    congruence.
Qed.

Lemma simulateDebounce_raises_on_persistent_change (t d : number) (n : Z)
    (pre flip : list FramePacket) (l : Locals) (x : StateTuple) :
  minFramesOf d = Int n ->
  loop t d (minFramesOf d) initialLocals pre = Next l ->
  stableState l <> (unknownC, unknownP) -> x <> stableState l ->
  pendingState l <> Some x ->
  Forall (fun p => rawStateOf t p = x) flip ->
  Z.of_nat (List.length flip) = Z.max n 2 ->
  simulateDebounce (pre ++ flip) t d = Throw (ReferenceError "commitEvent").
Proof.
  intros Hn Hrun Hs Hx Hpd Hall Hlen.
  destruct (persistent_change_raises t d n x flip l Hall Hs Hx Hpd Hlen)
    as (l' & R & _).
  apply simulateDebounce_Raised with l'.
  rewrite loop_app, Hrun. simpl. rewrite Hn. exact R.
Qed.

(** C1, at a failing input.  With the default parameters 0.05 and 0.55 (both
    finite and positive, 14 frames of debounce), a person off the rail in
    frame 0 and on the rail in frames 1-14: [simulateDebounce] does not
    return, it raises the ReferenceError of line 155 at frame 14, and it
    returns normally as long as frame 14 is left out.  The same happens for
    all parameters and frames: once the stable state is established, a raw
    state other than the stable one that persists for [max minFrames 2]
    frames makes [simulateDebounce] raise. *)
Theorem simulateDebounce_raises_at_commit :
  is_finite DEFAULT_PHONE_THRESHOLD = true
  /\ le (of_int 0) DEFAULT_PHONE_THRESHOLD = true
  /\ is_finite DEFAULT_DEBOUNCE_DURATION = true
  /\ lt (of_int 0) DEFAULT_DEBOUNCE_DURATION = true
  /\ minFramesOf DEFAULT_DEBOUNCE_DURATION = Int 14
  /\ simulateDebounce persistentChange DEFAULT_PHONE_THRESHOLD DEFAULT_DEBOUNCE_DURATION
     = Throw (ReferenceError "commitEvent")
  /\ (exists r,
        simulateDebounce (firstn 14 persistentChange)
          DEFAULT_PHONE_THRESHOLD DEFAULT_DEBOUNCE_DURATION = Normal r)
  /\ (forall phoneThreshold debounceDuration n pre flip l x,
        minFramesOf debounceDuration = Int n ->
        loop phoneThreshold debounceDuration (minFramesOf debounceDuration)
          initialLocals pre = Next l ->
        stableState l <> (unknownC, unknownP) -> x <> stableState l ->
        pendingState l <> Some x ->
        Forall (fun p => rawStateOf phoneThreshold p = x) flip ->
        Z.of_nat (List.length flip) = Z.max n 2 ->
        simulateDebounce (pre ++ flip) phoneThreshold debounceDuration
        = Throw (ReferenceError "commitEvent")).
Proof.
  split; [reflexivity|]. split; [reflexivity|]. split; [reflexivity|].
  split; [reflexivity|]. split; [reflexivity|]. split; [vm_compute; reflexivity|].
  split; [eexists; vm_compute; reflexivity|].
  intros t d n pre flip l x. apply simulateDebounce_raises_on_persistent_change.
Qed.

(** C3, at the scenario of the specification (threshold 0.05, debounce 0.5 s,
    12 frames): the run over frames 0-34 returns with no event; the run over
    frames 0-35 raises the ReferenceError of line 155 at frame 35, where the
    stable state has just been set to (compliant, no_phone), before any event
    is pushed (its label would have been "compliant_start"); and no run at
    all returns an event. *)
Theorem scenario_commit_raises :
  minFramesOf half = Int 12
  /\ (exists r,
        simulateDebounce (firstn 35 scenario) DEFAULT_PHONE_THRESHOLD half = Normal r
        /\ SimulationResult.events r = []
        /\ map currentOf (SimulationResult.packets r)
           = repeat (Some (non_compliant, no_phone)) 35)
  /\ simulateDebounce scenario DEFAULT_PHONE_THRESHOLD half
     = Throw (ReferenceError "commitEvent")
  /\ (exists l,
        loop DEFAULT_PHONE_THRESHOLD half (minFramesOf half) initialLocals scenario
        = Raised (ReferenceError "commitEvent") l
        /\ stableState l = (compliant, no_phone)
        /\ events l = []
        /\ List.length (processedPackets l) = 35%nat)
  /\ determineEventType (non_compliant, no_phone) (compliant, no_phone)
     = "compliant_start"%string
  /\ (forall packets phoneThreshold debounceDuration r,
        simulateDebounce packets phoneThreshold debounceDuration = Normal r ->
        SimulationResult.events r = []).
Proof.
  split; [reflexivity|]. split; [|split; [|split; [|split]]].
  - eexists. split; [vm_compute; reflexivity|]. split; reflexivity.
  - vm_compute. reflexivity.
  - eexists. split; [vm_compute; reflexivity|]. repeat split.
  - reflexivity.
  - intros packets t d r H. now apply returned_run_has_no_event in H.
Qed.

(* ================================================================== *)
(** * Further properties of the module and of its caller *)

(** ** [recomputeWithThreshold] *)

Lemma recomputePerson_again (t1 t2 : number) (p : PersonAnalysis) :
  recomputePerson t2 (recomputePerson t1 p) = recomputePerson t2 p.
Proof.
  unfold recomputePerson, recomputePhoneForPerson; simpl.
  destruct (phone_heuristic p); reflexivity.
Qed.

Lemma recomputePersons_again (t1 t2 : number) (ps : list PersonAnalysis) :
  map (recomputePerson t2) (map (recomputePerson t1) ps) = map (recomputePerson t2) ps.
Proof.
  rewrite map_map. apply map_ext. intros p. apply recomputePerson_again.
Qed.

(** X1. Recomputing with a second threshold forgets the first one:
    [recomputeWithThreshold] applied to its own output gives what it gives on
    the original packets, so the last threshold wins and applying it twice
    with one threshold changes nothing more. *)
Theorem recomputeWithThreshold_last_wins (packets : list FramePacket) (t1 t2 : number) :
  recomputeWithThreshold (recomputeWithThreshold packets t1) t2
  = recomputeWithThreshold packets t2
  /\ recomputeWithThreshold (recomputeWithThreshold packets t2) t2
     = recomputeWithThreshold packets t2.
Proof.
  assert (H : forall a b, recomputeWithThreshold (recomputeWithThreshold packets a) b
                          = recomputeWithThreshold packets b).
  { intros a b. unfold recomputeWithThreshold. rewrite map_map. apply map_ext.
    intros packet. cbn [persons metrics frame_number timestamp_sec state_machine].
    rewrite recomputePersons_again. reflexivity. }
  split; apply H.
Qed.

Lemma filter_length_bounds {A : Type} (f : A -> bool) (xs : list A) :
  0 <= filter_length f xs <= Z.of_nat (List.length xs).
Proof.
  unfold filter_length. split; [lia|]. apply inj_le.
  induction xs as [|x xs IH]; simpl; [lia|]. destruct (f x); simpl; lia.
Qed.

(** X2. [recomputeWithThreshold] touches nothing but the phone decision: it
    returns as many packets, in the same order, with the same frame numbers,
    timestamps, state-machine blocks, person counts and compliance counts;
    every packet keeps its persons in order with their ids, rail hit tests and
    measured distances; and the new [phone_count] of a packet lies between 0
    and its number of persons. *)
Theorem recomputeWithThreshold_preserves (packets : list FramePacket) (t : number) :
  let out := recomputeWithThreshold packets t in
  List.length out = List.length packets
  /\ map frame_number out = map frame_number packets
  /\ map timestamp_sec out = map timestamp_sec packets
  /\ map state_machine out = map state_machine packets
  /\ map (fun p => total_persons (metrics p)) out
     = map (fun p => total_persons (metrics p)) packets
  /\ map (fun p => (compliant_count (metrics p), non_compliant_count (metrics p))) out
     = map (fun p => (compliant_count (metrics p), non_compliant_count (metrics p))) packets
  /\ map (fun p => map person_id (persons p)) out
     = map (fun p => map person_id (persons p)) packets
  /\ map (fun p => map rail_hit_test (persons p)) out
     = map (fun p => map rail_hit_test (persons p)) packets
  /\ map (fun p => map (fun q => option_map min_distance (phone_heuristic q)) (persons p)) out
     = map (fun p => map (fun q => option_map min_distance (phone_heuristic q)) (persons p))
         packets
  /\ Forall (fun p => 0 <= phone_count (metrics p) <= Z.of_nat (List.length (persons p))) out.
Proof.
  intros out. subst out. unfold recomputeWithThreshold.
  split; [apply length_map|].
  repeat (split; [rewrite map_map; apply map_ext; intros p; simpl; try reflexivity|]).
  - rewrite map_map. apply map_ext. reflexivity.
  - rewrite map_map. apply map_ext. reflexivity.
  - rewrite map_map. apply map_ext. intros q. unfold recomputePerson; simpl.
    destruct (phone_heuristic q); reflexivity.
  - apply Forall_forall. intros q Hq. apply in_map_iff in Hq.
    destruct Hq as (p & <- & _). simpl.
    pose proof (filter_length_bounds phoneTruthy (map (recomputePerson t) (persons p))) as B.
    rewrite length_map in B |- *. exact B.
Qed.

Lemma flagCount_monotone (t1 t2 : number) (ps : list PersonAnalysis) :
  le t1 t2 = true ->
  filter_length (phoneFlag t1) ps <= filter_length (phoneFlag t2) ps.
Proof.
  intros Hle. apply filter_length_monotone. intros p. now apply phoneFlag_monotone.
Qed.

(** X3. Per frame, the recomputed [phone_count] grows with the threshold:
    for [t1 <= t2], every packet of [recomputeWithThreshold packets t1] has a
    [phone_count] at most that of the packet at the same position of
    [recomputeWithThreshold packets t2]. *)
Theorem recomputeWithThreshold_monotone (packets : list FramePacket) (t1 t2 : number) :
  le t1 t2 = true ->
  Forall2 (fun a b => phone_count (metrics a) <= phone_count (metrics b))
    (recomputeWithThreshold packets t1) (recomputeWithThreshold packets t2).
Proof.
  intros Hle. unfold recomputeWithThreshold.
  induction packets as [|p ps IH]; simpl; constructor; [|exact IH].
  simpl. rewrite !phoneCount_recomputed. now apply flagCount_monotone.
Qed.

Lemma recomputeWithThreshold_monotone_witness :
  le near DEFAULT_PHONE_THRESHOLD = true
  /\ map (fun p => phone_count (metrics p)) (recomputeWithThreshold mixedFrames near)
     = [0; 0; 0]
  /\ map (fun p => phone_count (metrics p))
       (recomputeWithThreshold mixedFrames DEFAULT_PHONE_THRESHOLD)
     = [1; 0; 0]
  /\ Forall2 (fun a b => phone_count (metrics a) <= phone_count (metrics b))
       (recomputeWithThreshold mixedFrames near)
       (recomputeWithThreshold mixedFrames DEFAULT_PHONE_THRESHOLD).
Proof.
  split; [reflexivity|]. split; [reflexivity|]. split; [reflexivity|].
  apply (recomputeWithThreshold_monotone mixedFrames near DEFAULT_PHONE_THRESHOLD).
  reflexivity.
Defined.

Lemma lt_nan_right (x : number) : lt x S754_nan = false.
Proof. destruct x; reflexivity. Qed.

Lemma lt_nan_left (x : number) : lt S754_nan x = false.
Proof. destruct x; reflexivity. Qed.

Lemma phoneFlag_nan (p : PersonAnalysis) : phoneFlag S754_nan p = false.
Proof.
  unfold phoneFlag, recomputePhoneForPerson.
  destruct (phone_heuristic p); [apply lt_nan_right | reflexivity].
Qed.

Lemma filter_length_none {A : Type} (f : A -> bool) (xs : list A) :
  (forall x, f x = false) -> filter_length f xs = 0.
Proof.
  intros H. unfold filter_length.
  induction xs as [|x xs IH]; simpl; [reflexivity | now rewrite H].
Qed.

Lemma existsb_none {A : Type} (f : A -> bool) (xs : list A) :
  (forall x, f x = false) -> existsb f xs = false.
Proof. intros H. induction xs as [|x xs IH]; simpl; [reflexivity | now rewrite H]. Qed.

(** X4. Not-a-number never flags: with a NaN threshold no person of any frame
    is flagged, every recomputed [phone_count] is 0 and a run that returns
    has [phoneFrames = 0]; and a person whose measured distance is NaN is
    flagged under no threshold. *)
Theorem nan_flags_nobody (packets : list FramePacket) (debounceDuration : number) :
  Forall (fun p => phone_count (metrics p) = 0
                   /\ Forall (fun q => phoneTruthy q = false) (persons p))
    (recomputeWithThreshold packets S754_nan)
  /\ (forall r, simulateDebounce packets S754_nan debounceDuration = Normal r ->
         SimulationStats.phoneFrames (SimulationResult.stats r) = 0)
  /\ (forall h t, min_distance h = S754_nan -> recomputePhoneForPerson (Some h) t = false).
Proof.
  split; [|split].
  - apply Forall_forall. intros q Hq. unfold recomputeWithThreshold in Hq.
    apply in_map_iff in Hq. destruct Hq as (p & <- & _). simpl. split.
    + rewrite phoneCount_recomputed. apply filter_length_none, phoneFlag_nan.
    + apply Forall_forall. intros x Hx. apply in_map_iff in Hx.
      destruct Hx as (y & <- & _). rewrite phoneTruthy_recomputePerson.
      apply phoneFlag_nan.
  - intros r H. rewrite (simulateDebounce_phoneFrames _ _ _ _ H).
    apply filter_length_none. intros packet. apply existsb_none, phoneFlag_nan.
  - intros h t E. simpl. rewrite E. apply lt_nan_left.
Qed.

(** ** Runs of [simulateDebounce] that return *)

Lemma rawCompliance_threshold_free (t : number) (packet : FramePacket) :
  fst (rawStateOf t packet) = rawComplianceOf packet (persons packet).
Proof. rewrite rawCompliance_cases. reflexivity. Qed.

Lemma loopBody_compliance_counters (t d : number) (mf : integral) (l : Locals)
    (packet : FramePacket) :
  let l' := localsOf (loopBody t d mf l packet) in
  let c := rawComplianceOf packet (persons packet) in
  compliantFrames l'
  = compliantFrames l + (if ComplianceState_eqb c compliant then 1 else 0)
  /\ nonCompliantFrames l'
     = nonCompliantFrames l + (if ComplianceState_eqb c non_compliant then 1 else 0).
Proof.
  rewrite loopBody_unfold.
  destruct (logic_assigns mf packet (rawStateOf t packet)
              (updateStats l (rawStateOf t packet))) as (s & pd & c & E & _).
  assert (H : compliantFrames (updateStats l (rawStateOf t packet))
              = compliantFrames l
                + (if ComplianceState_eqb (rawComplianceOf packet (persons packet)) compliant
                   then 1 else 0)
              /\ nonCompliantFrames (updateStats l (rawStateOf t packet))
                 = nonCompliantFrames l
                   + (if ComplianceState_eqb (rawComplianceOf packet (persons packet))
                           non_compliant then 1 else 0)).
  { unfold updateStats; cbn [compliantFrames nonCompliantFrames].
    rewrite rawCompliance_threshold_free.
    destruct (rawComplianceOf packet (persons packet)); simpl; split; lia. }
  destruct (stateMachineLogic _ _ _ _) as [l2|e l2]; simpl in *; subst l2; exact H.
Qed.

Lemma compliance_counters_loop (t d : number) (mf : integral) (ps : list FramePacket) :
  forall l l', loop t d mf l ps = Next l' ->
  compliantFrames l' = compliantFrames l + complianceFrameCount compliant ps
  /\ nonCompliantFrames l' = nonCompliantFrames l + complianceFrameCount non_compliant ps.
Proof.
  induction ps as [|p ps IH]; intros l l'; simpl.
  - intros [= ->]. unfold complianceFrameCount, filter_length; simpl. split; lia.
  - pose proof (loopBody_compliance_counters t d mf l p) as (Hc & Hn).
    destruct (loopBody t d mf l p) as [l1|e l1]; simpl in *; [|discriminate].
    intros H. destruct (IH _ _ H) as [H1 H2]. rewrite H1, H2, Hc, Hn.
    unfold complianceFrameCount, filter_length; simpl.
    destruct (rawComplianceOf p (persons p));
      cbn [ComplianceState_eqb List.length]; split; lia.
Qed.

Lemma complianceFrameCount_partition (ps : list FramePacket) :
  complianceFrameCount compliant ps + complianceFrameCount non_compliant ps
  + complianceFrameCount unknownC ps = Z.of_nat (List.length ps).
Proof.
  unfold complianceFrameCount, filter_length.
  induction ps as [|p ps IH]; simpl; [reflexivity|].
  destruct (rawComplianceOf p (persons p));
    cbn [ComplianceState_eqb List.length]; lia.
Qed.

Lemma complianceFrameCount_unknown (ps : list FramePacket) :
  complianceFrameCount unknownC ps
  = filter_length (fun p => total_persons (metrics p) =? 0) ps.
Proof.
  apply filter_length_ext. intros p. unfold rawComplianceOf.
  destruct (total_persons (metrics p) =? 0); [reflexivity|].
  destruct (existsb railTruthy (persons p)); reflexivity.
Qed.

Lemma withoutStateMachine_processed (t d : number) (p : FramePacket) (l : Locals) :
  withoutStateMachine (processedPacket d p (map (recomputePerson t) (persons p)) l)
  = withoutStateMachine
      {| frame_number := frame_number p;
         timestamp_sec := timestamp_sec p;
         metrics := with_phone_count (metrics p)
                      (filter_length phoneTruthy (map (recomputePerson t) (persons p)));
         persons := map (recomputePerson t) (persons p);
         state_machine := state_machine p |}.
Proof. reflexivity. Qed.

Lemma processed_without_state (t d : number) (mf : integral) (ps : list FramePacket) :
  forall l l', loop t d mf l ps = Next l' ->
  map withoutStateMachine (processedPackets l')
  = map withoutStateMachine (processedPackets l)
    ++ map withoutStateMachine (recomputeWithThreshold ps t).
Proof.
  induction ps as [|p ps IH]; intros l l'; simpl.
  - intros [= ->]. now rewrite app_nil_r.
  - destruct (loopBody t d mf l p) as [l1|e l1] eqn:E; simpl; [|discriminate].
    intros H. rewrite (IH _ _ H).
    apply loopBody_Next in E. destruct E as (_ & _ & Epk).
    rewrite Epk, map_app, <- app_assoc. simpl.
    rewrite withoutStateMachine_processed. reflexivity.
Qed.

Lemma simulateDebounce_returns (t d : number) (ps : list FramePacket)
    (r : SimulationResult.t) :
  simulateDebounce ps t d = Normal r ->
  exists l,
    loop t d (minFramesOf d) initialLocals ps = Next l
    /\ SimulationResult.packets r = processedPackets l
    /\ SimulationResult.events r = events l
    /\ SimulationStats.totalFrames (SimulationResult.stats r) = Z.of_nat (List.length ps)
    /\ SimulationStats.compliantFrames (SimulationResult.stats r) = compliantFrames l
    /\ SimulationStats.nonCompliantFrames (SimulationResult.stats r) = nonCompliantFrames l
    /\ SimulationStats.phoneFrames (SimulationResult.stats r) = phoneFrames l.
Proof.
  unfold simulateDebounce. destruct ps as [|p ps].
  - intros [= <-]. exists initialLocals. repeat split.
  - cbn [List.length Nat.eqb].
    destruct (loop t d (minFramesOf d) initialLocals (p :: ps)) as [l|e l] eqn:E;
      [|discriminate].
    intros [= <-]. exists l. repeat split.
Qed.

Lemma simulateDebounce_packets_are_recomputed_aux (packets : list FramePacket)
    (t d : number) (r : SimulationResult.t) :
  simulateDebounce packets t d = Normal r ->
  map withoutStateMachine (SimulationResult.packets r)
  = map withoutStateMachine (recomputeWithThreshold packets t).
Proof.
  intros H. apply simulateDebounce_returns in H.
  destruct H as (l & R & -> & _).
  rewrite (processed_without_state _ _ _ _ _ _ R). reflexivity.
Qed.

(** X5. A run that returns hands back the packets of
    [recomputeWithThreshold] with a state-machine block added: apart from
    [state_machine], the processed packets of [simulateDebounce packets t d]
    are those of [recomputeWithThreshold packets t], in the same order. *)
Theorem simulateDebounce_packets_are_recomputed (packets : list FramePacket)
    (t d : number) (r : SimulationResult.t) :
  simulateDebounce packets t d = Normal r ->
  map withoutStateMachine (SimulationResult.packets r)
  = map withoutStateMachine (recomputeWithThreshold packets t)
  /\ Forall (fun p => state_machine p <> None) (SimulationResult.packets r).
Proof.
  intros H. apply simulateDebounce_returns in H.
  destruct H as (l & R & -> & _). split.
  - rewrite (processed_without_state _ _ _ _ _ _ R). reflexivity.
  - clear -R. assert (G : Forall (fun p => state_machine p <> None)
                            (processedPackets initialLocals)) by constructor.
    revert R G. generalize initialLocals. induction packets as [|p ps IH]; intros l0; simpl.
    + intros [= ->]. auto.
    + destruct (loopBody t d (minFramesOf d) l0 p) as [l1|e l1] eqn:E; simpl;
        [|discriminate].
      intros R G. apply (IH l1 R).
      apply loopBody_Next in E. destruct E as (_ & _ & Epk). rewrite Epk.
      apply Forall_app. split; [exact G|]. constructor; [discriminate | constructor].
Qed.

Lemma simulateDebounce_packets_are_recomputed_witness :
  map withoutStateMachine
    (SimulationResult.packets
       (returned (simulateDebounce mixedFrames DEFAULT_PHONE_THRESHOLD half)))
  = map withoutStateMachine (recomputeWithThreshold mixedFrames DEFAULT_PHONE_THRESHOLD)
  /\ Forall (fun p => state_machine p <> None)
       (SimulationResult.packets
          (returned (simulateDebounce mixedFrames DEFAULT_PHONE_THRESHOLD half))).
Proof.
  apply (simulateDebounce_packets_are_recomputed mixedFrames DEFAULT_PHONE_THRESHOLD half).
  vm_compute. reflexivity.
Defined.

(** X6. The statistics of a run that returns: [totalFrames] is the number of
    input frames and of processed packets; [compliantFrames] and
    [nonCompliantFrames] count the frames whose raw compliance is Compliant
    and NonCompliant, and together with the frames whose [total_persons] is 0
    they add up to [totalFrames]; [phoneFrames] lies between 0 and
    [totalFrames]. *)
Theorem returned_stats_are_consistent (packets : list FramePacket) (t d : number)
    (r : SimulationResult.t) :
  simulateDebounce packets t d = Normal r ->
  let st := SimulationResult.stats r in
  SimulationStats.totalFrames st = Z.of_nat (List.length packets)
  /\ List.length (SimulationResult.packets r) = List.length packets
  /\ SimulationStats.compliantFrames st = complianceFrameCount compliant packets
  /\ SimulationStats.nonCompliantFrames st = complianceFrameCount non_compliant packets
  /\ SimulationStats.compliantFrames st + SimulationStats.nonCompliantFrames st
     + filter_length (fun p => total_persons (metrics p) =? 0) packets
     = SimulationStats.totalFrames st
  /\ 0 <= SimulationStats.compliantFrames st
  /\ 0 <= SimulationStats.nonCompliantFrames st
  /\ SimulationStats.compliantFrames st + SimulationStats.nonCompliantFrames st
     <= SimulationStats.totalFrames st
  /\ 0 <= SimulationStats.phoneFrames st <= SimulationStats.totalFrames st.
Proof.
  intros H st. subst st. pose proof H as H'.
  apply simulateDebounce_returns in H.
  destruct H as (l & R & Epk & _ & -> & -> & -> & _).
  destruct (compliance_counters_loop _ _ _ _ _ _ R) as [Hc Hn]. simpl in Hc, Hn.
  rewrite Hc, Hn, (simulateDebounce_phoneFrames _ _ _ _ H').
  pose proof (complianceFrameCount_partition packets) as P.
  rewrite complianceFrameCount_unknown in P.
  pose proof (filter_length_bounds (fun p => total_persons (metrics p) =? 0) packets) as B0.
  pose proof (filter_length_bounds
                (fun p => ComplianceState_eqb (rawComplianceOf p (persons p)) compliant)
                packets) as B1.
  pose proof (filter_length_bounds
                (fun p => ComplianceState_eqb (rawComplianceOf p (persons p)) non_compliant)
                packets) as B2.
  fold (complianceFrameCount compliant packets) in B1.
  fold (complianceFrameCount non_compliant packets) in B2.
  pose proof (filter_length_bounds (fun p => existsb (phoneFlag t) (persons p)) packets) as B3.
  fold (phoneFrameCount t packets) in B3.
  split; [reflexivity|]. split.
  - rewrite Epk.
    pose proof (f_equal (@List.length _) (processed_without_state _ _ _ _ _ _ R)) as L.
    rewrite length_app, !length_map in L. simpl in L.
    unfold recomputeWithThreshold in L. rewrite length_map in L. exact L.
  - repeat split; lia.
Qed.

Lemma returned_stats_are_consistent_witness :
  let st := SimulationResult.stats
              (returned (simulateDebounce mixedFrames DEFAULT_PHONE_THRESHOLD half)) in
  SimulationStats.totalFrames st = Z.of_nat (List.length mixedFrames)
  /\ List.length (SimulationResult.packets
                    (returned (simulateDebounce mixedFrames DEFAULT_PHONE_THRESHOLD half)))
     = List.length mixedFrames
  /\ SimulationStats.compliantFrames st = complianceFrameCount compliant mixedFrames
  /\ SimulationStats.nonCompliantFrames st = complianceFrameCount non_compliant mixedFrames
  /\ SimulationStats.compliantFrames st + SimulationStats.nonCompliantFrames st
     + filter_length (fun p => total_persons (metrics p) =? 0) mixedFrames
     = SimulationStats.totalFrames st
  /\ 0 <= SimulationStats.compliantFrames st
  /\ 0 <= SimulationStats.nonCompliantFrames st
  /\ SimulationStats.compliantFrames st + SimulationStats.nonCompliantFrames st
     <= SimulationStats.totalFrames st
  /\ 0 <= SimulationStats.phoneFrames st <= SimulationStats.totalFrames st.
Proof.
  apply (returned_stats_are_consistent mixedFrames DEFAULT_PHONE_THRESHOLD half).
  vm_compute. reflexivity.
Defined.

(** X7. What the two parameters can change in the statistics of runs that
    return: [totalFrames], [compliantFrames] and [nonCompliantFrames] are the
    same for every threshold and every debounce duration, and [phoneFrames]
    is the same for every debounce duration under one threshold. *)
Theorem stats_depend_on_threshold_only (packets : list FramePacket)
    (t1 d1 t2 d2 : number) (r1 r2 : SimulationResult.t) :
  simulateDebounce packets t1 d1 = Normal r1 ->
  simulateDebounce packets t2 d2 = Normal r2 ->
  let s1 := SimulationResult.stats r1 in
  let s2 := SimulationResult.stats r2 in
  SimulationStats.totalFrames s1 = SimulationStats.totalFrames s2
  /\ SimulationStats.compliantFrames s1 = SimulationStats.compliantFrames s2
  /\ SimulationStats.nonCompliantFrames s1 = SimulationStats.nonCompliantFrames s2
  /\ (t1 = t2 -> SimulationStats.phoneFrames s1 = SimulationStats.phoneFrames s2).
Proof.
  intros H1 H2 s1 s2. subst s1 s2.
  pose proof (simulateDebounce_phoneFrames _ _ _ _ H1) as P1.
  pose proof (simulateDebounce_phoneFrames _ _ _ _ H2) as P2.
  apply simulateDebounce_returns in H1. destruct H1 as (l1 & R1 & _ & _ & T1 & C1 & N1 & _).
  apply simulateDebounce_returns in H2. destruct H2 as (l2 & R2 & _ & _ & T2 & C2 & N2 & _).
  destruct (compliance_counters_loop _ _ _ _ _ _ R1) as [Hc1 Hn1].
  destruct (compliance_counters_loop _ _ _ _ _ _ R2) as [Hc2 Hn2].
  repeat split; try congruence.
Qed.

Lemma stats_depend_on_threshold_only_witness :
  let s1 := SimulationResult.stats
              (returned (simulateDebounce mixedFrames near half)) in
  let s2 := SimulationResult.stats
              (returned (simulateDebounce mixedFrames DEFAULT_PHONE_THRESHOLD
                           DEFAULT_DEBOUNCE_DURATION)) in
  SimulationStats.totalFrames s1 = SimulationStats.totalFrames s2
  /\ SimulationStats.compliantFrames s1 = SimulationStats.compliantFrames s2
  /\ SimulationStats.nonCompliantFrames s1 = SimulationStats.nonCompliantFrames s2
  /\ (near = DEFAULT_PHONE_THRESHOLD ->
      SimulationStats.phoneFrames s1 = SimulationStats.phoneFrames s2).
Proof.
  apply (stats_depend_on_threshold_only mixedFrames near half DEFAULT_PHONE_THRESHOLD
           DEFAULT_DEBOUNCE_DURATION); vm_compute; reflexivity.
Defined.

Lemma processed_grow (t d : number) (mf : integral) (ps : list FramePacket) :
  forall l l', loop t d mf l ps = Next l' ->
  exists more, processedPackets l' = processedPackets l ++ more
               /\ List.length more = List.length ps.
Proof.
  induction ps as [|p ps IH]; intros l l'; simpl.
  - intros [= ->]. exists []. now rewrite app_nil_r.
  - destruct (loopBody t d mf l p) as [l1|e l1] eqn:E; simpl; [|discriminate].
    intros H. destruct (IH _ _ H) as (more & M & L).
    apply loopBody_Next in E. destruct E as (_ & _ & Epk).
    eexists (_ :: more). rewrite M, Epk, <- app_assoc. simpl. split; [reflexivity | lia].
Qed.

(** X8. Returning is closed under prefixes: when [simulateDebounce] returns
    on [packets ++ more], it returns on [packets] too, and the processed
    packets of the shorter run are the first packets of the longer one, with
    the same state-machine blocks. *)
Theorem returning_run_has_returning_prefixes (packets more : list FramePacket)
    (t d : number) (r : SimulationResult.t) :
  simulateDebounce (packets ++ more) t d = Normal r ->
  exists r',
    simulateDebounce packets t d = Normal r'
    /\ SimulationResult.packets r'
       = firstn (List.length packets) (SimulationResult.packets r).
Proof.
  intros H. apply simulateDebounce_returns in H. destruct H as (l & R & -> & _).
  rewrite loop_app in R.
  destruct (loop t d (minFramesOf d) initialLocals packets) as [l0|e l0] eqn:R0;
    [|discriminate].
  simpl in R.
  destruct (processed_grow _ _ _ _ _ _ R0) as (m0 & M0 & L0). simpl in M0.
  destruct (processed_grow _ _ _ _ _ _ R) as (m1 & M1 & L1).
  destruct packets as [|p ps].
  - eexists. split; [reflexivity|]. reflexivity.
  - eexists. split; [apply (simulateDebounce_Next t d (p :: ps) l0); [discriminate | exact R0]|].
    cbn [SimulationResult.packets]. rewrite M1, M0, <- L0.
    rewrite firstn_app, firstn_all, Nat.sub_diag. simpl. now rewrite app_nil_r.
Qed.

Lemma returning_run_has_returning_prefixes_witness :
  exists r',
    simulateDebounce (firstn 20 scenario) DEFAULT_PHONE_THRESHOLD half = Normal r'
    /\ SimulationResult.packets r'
       = firstn (List.length (firstn 20 scenario))
           (SimulationResult.packets
              (returned (simulateDebounce (firstn 20 scenario ++ firstn 15 (skipn 20 scenario))
                           DEFAULT_PHONE_THRESHOLD half))).
Proof.
  apply (returning_run_has_returning_prefixes (firstn 20 scenario)
           (firstn 15 (skipn 20 scenario)) DEFAULT_PHONE_THRESHOLD half).
  vm_compute. reflexivity.
Defined.

(** ** Debounce durations that never commit *)

Lemma loop_never_raises (t d : number) (mf : integral) (ps : list FramePacket) :
  (forall count, int_ge count mf = false) ->
  forall l, exists l', loop t d mf l ps = Next l'.
Proof.
  intros G. induction ps as [|p ps IH]; intros l; simpl; [now exists l|].
  destruct (loopBody t d mf l p) as [l1|e l1] eqn:E; simpl; [apply IH|].
  apply loopBody_Raised in E. destruct E as (_ & _ & _ & F & _).
  rewrite G in F. discriminate.
Qed.

(** X9. A debounce duration of NaN or of +Infinity never commits: for
    every frame sequence and threshold [simulateDebounce] returns, because
    [Math.ceil(duration * 24)] is then NaN or +Infinity and
    [pendingFrameCount >= minFrames] is false for every count. *)
Theorem nan_or_infinite_duration_returns (packets : list FramePacket) (t : number) :
  minFramesOf S754_nan = NotANumber
  /\ minFramesOf (S754_infinity false) = PosInfinity
  /\ (exists r, simulateDebounce packets t S754_nan = Normal r)
  /\ (exists r, simulateDebounce packets t (S754_infinity false) = Normal r).
Proof.
  split; [reflexivity|]. split; [reflexivity|].
  assert (H : forall d, (forall count, int_ge count (minFramesOf d) = false) ->
                        exists r, simulateDebounce packets t d = Normal r).
  { intros d G. destruct packets as [|p ps]; [eexists; reflexivity|].
    destruct (loop_never_raises t d (minFramesOf d) (p :: ps) G initialLocals) as (l & R).
    eexists. apply (simulateDebounce_Next t d (p :: ps) l); [discriminate | exact R]. }
  split; apply H; intros count; reflexivity.
Qed.

(** ** The machine variables between iterations *)

Lemma machineInvariant_step (t d : number) (mf : integral) (l l' : Locals)
    (p : FramePacket) (n : Z) :
  machineInvariant mf l -> 0 <= pendingFrameCount l <= n ->
  loopBody t d mf l p = Next l' ->
  machineInvariant mf l' /\ 0 <= pendingFrameCount l' <= n + 1.
Proof.
  intros Inv B E. apply loopBody_Next in E. destruct E as (St & _).
  destruct St as [Hu Hr Hs Hp Hc | Hu Hr Hs Hp Hc | Hu Hr Hs Hp Hc
                 | Hu Hr Hp0 Hs Hp Hc | Hu Hr Hp0 G Hs Hp Hc].
  - split; [|lia]. left. destruct Inv as [[N Z0]|(q & _ & _ & Hne & _)]; [|contradiction].
    split; congruence.
  - split; [|lia]. left. destruct Inv as [[N Z0]|(q & _ & _ & Hne & _)]; [|contradiction].
    split; congruence.
  - split; [|lia]. left. split; assumption.
  - split; [|lia]. right. exists (rawStateOf t p).
    repeat split; try congruence; try lia.
  - split; [|lia]. right. exists (rawStateOf t p).
    repeat split; try congruence; try lia. right. now rewrite Hc.
Qed.

Lemma machineInvariant_loop (t d : number) (mf : integral) (ps : list FramePacket) :
  forall l l' n,
    machineInvariant mf l -> 0 <= pendingFrameCount l <= n ->
    loop t d mf l ps = Next l' ->
    machineInvariant mf l' /\ 0 <= pendingFrameCount l' <= n + Z.of_nat (List.length ps).
Proof.
  induction ps as [|p ps IH]; intros l l' n Inv B; simpl.
  - intros [= ->]. split; [exact Inv | lia].
  - destruct (loopBody t d mf l p) as [l1|e l1] eqn:E; simpl; [|discriminate].
    intros R. destruct (machineInvariant_step t d mf l l1 p n Inv B E) as [Inv1 B1].
    destruct (IH l1 l' (n + 1) Inv1 B1 R) as [Inv' B']. split; [exact Inv' | lia].
Qed.

(** X10. Between two iterations of a run from the initial state, either
    nothing is pending and [pendingFrameCount] is 0, or a candidate is pending
    that differs from the stable state, the stable state is no longer
    (Unknown, Unknown), and the count is at least 1 and is either 1 or still
    below [minFrames]; the count never exceeds the number of frames
    processed, and a pending candidate is always the raw state of the frame
    just processed. *)
Theorem machine_variables_between_iterations (t d : number)
    (pre : list FramePacket) (p : FramePacket) (l : Locals) :
  loop t d (minFramesOf d) initialLocals (pre ++ [p]) = Next l ->
  machineInvariant (minFramesOf d) l
  /\ 0 <= pendingFrameCount l <= Z.of_nat (List.length (pre ++ [p]))
  /\ (forall q, pendingState l = Some q -> q = rawStateOf t p).
Proof.
  intros R.
  assert (I0 : machineInvariant (minFramesOf d) initialLocals) by (left; split; reflexivity).
  destruct (machineInvariant_loop t d (minFramesOf d) (pre ++ [p]) initialLocals l 0 I0
              ltac:(simpl; lia) R) as [Inv B].
  split; [exact Inv|]. split; [lia|].
  intros q Hq. rewrite loop_app in R.
  destruct (loop t d (minFramesOf d) initialLocals pre) as [l0|e l0] eqn:R0; [|discriminate].
  simpl in R.
  destruct (loopBody t d (minFramesOf d) l0 p) as [l1|e l1] eqn:E; [|discriminate].
  simpl in R. injection R as ->.
  assert (K : stableState l0 = (unknownC, unknownP) -> pendingState l0 = None).
  { apply (cold_has_no_pending t d (minFramesOf d) pre initialLocals l0); auto. }
  destruct (pending_is_last_raw t d (minFramesOf d) l0 l p K E) as [N|S]; congruence.
Qed.

Lemma machine_variables_between_iterations_witness :
  machineInvariant (minFramesOf half)
    (localsOf (loop DEFAULT_PHONE_THRESHOLD half (minFramesOf half) initialLocals
                 (firstn 14 scenario ++ [frameOf 14 onRail])))
  /\ 0 <= pendingFrameCount
            (localsOf (loop DEFAULT_PHONE_THRESHOLD half (minFramesOf half) initialLocals
                         (firstn 14 scenario ++ [frameOf 14 onRail])))
       <= Z.of_nat (List.length (firstn 14 scenario ++ [frameOf 14 onRail]))
  /\ (forall q,
        pendingState
          (localsOf (loop DEFAULT_PHONE_THRESHOLD half (minFramesOf half) initialLocals
                       (firstn 14 scenario ++ [frameOf 14 onRail]))) = Some q ->
        q = rawStateOf DEFAULT_PHONE_THRESHOLD (frameOf 14 onRail)).
Proof.
  apply (machine_variables_between_iterations DEFAULT_PHONE_THRESHOLD half
           (firstn 14 scenario) (frameOf 14 onRail)).
  vm_compute. reflexivity.
Defined.

(** ** The stable state of the runs that return *)

Lemma stable_kept (t d : number) (mf : integral) (ps : list FramePacket) :
  forall l l', loop t d mf l ps = Next l' ->
  stableState l <> (unknownC, unknownP) ->
  stableState l' = stableState l
  /\ stableTrace t d mf l ps = repeat (stableState l) (List.length ps).
Proof.
  induction ps as [|p ps IH]; intros l l'; simpl.
  - intros [= ->] _. split; reflexivity.
  - destruct (loopBody t d mf l p) as [l1|e l1] eqn:E; simpl; [|discriminate].
    intros R Hs. apply loopBody_Next in E. destruct E as (St & _).
    assert (E1 : stableState l1 = stableState l).
    { destruct St as [Hu Hr Hs1 Hp Hc | Hu Hr Hs1 Hp Hc | Hu Hr Hs1 Hp Hc
                     | Hu Hr Hp0 Hs1 Hp Hc | Hu Hr Hp0 G Hs1 Hp Hc]; congruence. }
    destruct (IH _ _ R) as [H1 H2]; [congruence|].
    rewrite H1, H2, E1. split; reflexivity.
Qed.

Lemma trace_frozen (t d : number) (mf : integral) (ps : list FramePacket) :
  forall l l', loop t d mf l ps = Next l' ->
  forall (i j : nat) (a b : StateTuple),
    (i < j)%nat ->
    nth_error (stableTrace t d mf l ps) i = Some a ->
    nth_error (stableTrace t d mf l ps) j = Some b ->
    a <> (unknownC, unknownP) -> b = a.
Proof.
  induction ps as [|p ps IH]; intros l l' R i j a b Hij Hi Hj Ha; simpl in *.
  - destruct i; discriminate.
  - destruct (loopBody t d mf l p) as [l1|e l1] eqn:E; simpl in R; [|discriminate].
    destruct j as [|j]; [lia|]. destruct i as [|i]; simpl in Hi, Hj.
    + injection Hi as <-.
      destruct (stable_kept _ _ _ _ _ _ R Ha) as [_ T]. rewrite T in Hj.
      apply nth_error_In, repeat_spec in Hj. exact Hj.
    + apply (IH l1 l' R i j a b); [lia | assumption..].
Qed.

(** X11. In a run that returns, the stable state changes once at most: as
    soon as a processed packet carries a [current_state] other than
    (Unknown, Unknown), every later packet of the run carries the same
    [current_state] (a run in which a change would be committed does not
    return). *)
Theorem returned_run_keeps_adopted_state (packets : list FramePacket) (t d : number)
    (r : SimulationResult.t) (i j : nat) (a b : StateTuple) :
  simulateDebounce packets t d = Normal r ->
  (i < j)%nat ->
  nth_error (map currentOf (SimulationResult.packets r)) i = Some (Some a) ->
  nth_error (map currentOf (SimulationResult.packets r)) j = Some (Some b) ->
  a <> (unknownC, unknownP) ->
  b = a.
Proof.
  intros H Hij Hi Hj Ha. apply simulateDebounce_returns in H.
  destruct H as (l & R & Epk & _).
  rewrite Epk, (processed_current _ _ _ _ _ _ R) in Hi, Hj. simpl in Hi, Hj.
  rewrite nth_error_map in Hi, Hj.
  destruct (nth_error (stableTrace t d (minFramesOf d) initialLocals packets) i)
    as [a'|] eqn:Ei; [|discriminate].
  destruct (nth_error (stableTrace t d (minFramesOf d) initialLocals packets) j)
    as [b'|] eqn:Ej; [|discriminate].
  simpl in Hi, Hj. injection Hi as ->. injection Hj as ->.
  exact (trace_frozen _ _ _ _ _ _ R i j a b Hij Ei Ej Ha).
Qed.

(** Frames 0 and 30 of the scenario cut before its commit: frames 12-19 and
    24-34 are on the rail, yet the state stays (non_compliant, no_phone). *)
Lemma returned_run_keeps_adopted_state_witness :
  nth_error (map currentOf
               (SimulationResult.packets
                  (returned (simulateDebounce (firstn 35 scenario)
                               DEFAULT_PHONE_THRESHOLD half)))) 0
  = Some (Some (non_compliant, no_phone))
  /\ fst (rawStateOf DEFAULT_PHONE_THRESHOLD (nth 30 scenario (frameOf 0 []))) = compliant
  /\ forall b,
       nth_error (map currentOf
                    (SimulationResult.packets
                       (returned (simulateDebounce (firstn 35 scenario)
                                    DEFAULT_PHONE_THRESHOLD half)))) 30
       = Some (Some b) ->
       b = (non_compliant, no_phone).
Proof.
  split; [vm_compute; reflexivity|]. split; [vm_compute; reflexivity|].
  intros b Hb.
  apply (returned_run_keeps_adopted_state (firstn 35 scenario) DEFAULT_PHONE_THRESHOLD half
           (returned (simulateDebounce (firstn 35 scenario) DEFAULT_PHONE_THRESHOLD half))
           0%nat 30%nat (non_compliant, no_phone) b).
  - vm_compute. reflexivity.
  - lia.
  - vm_compute. reflexivity.
  - exact Hb.
  - discriminate.
Defined.

Lemma complianceFrameCount_nobody (c : ComplianceState) (ps : list FramePacket) :
  Forall (fun p => total_persons (metrics p) = 0) ps ->
  c <> unknownC -> complianceFrameCount c ps = 0.
Proof.
  intros Hall Hc. unfold complianceFrameCount, filter_length.
  induction Hall as [|p ps Hp _ IH]; simpl; [reflexivity|].
  unfold rawComplianceOf at 1. rewrite Hp. simpl.
  destruct c; simpl; try exact IH. contradiction.
Qed.

(** X12. Frames that report nobody: when every frame has
    [metrics.total_persons = 0], [simulateDebounce] returns for all
    parameters, every processed packet carries the stable state
    (Unknown, Unknown), no event is emitted, and both [compliantFrames] and
    [nonCompliantFrames] are 0. *)
Theorem nobody_on_the_stairs (packets : list FramePacket) (t d : number) :
  Forall (fun p => total_persons (metrics p) = 0) packets ->
  exists r,
    simulateDebounce packets t d = Normal r
    /\ map currentOf (SimulationResult.packets r)
       = repeat (Some (unknownC, unknownP)) (List.length packets)
    /\ SimulationResult.events r = []
    /\ SimulationStats.compliantFrames (SimulationResult.stats r) = 0
    /\ SimulationStats.nonCompliantFrames (SimulationResult.stats r) = 0.
Proof.
  intros Hall.
  assert (Hraw : Forall (fun p => fst (rawStateOf t p) = unknownC) packets).
  { eapply Forall_impl; [|exact Hall]. intros p Hp. simpl in Hp.
    rewrite rawCompliance_cases, Hp. reflexivity. }
  destruct (cold_prefix t d (minFramesOf d) packets Hraw initialLocals eq_refl)
    as (l & R & _ & _ & _ & Ev & T).
  destruct packets as [|p ps]; [eexists; repeat split|].
  pose proof (simulateDebounce_Next t d (p :: ps) l ltac:(discriminate) R) as S.
  eexists. split; [exact S|]. cbn [SimulationResult.packets SimulationResult.events
    SimulationResult.stats SimulationStats.compliantFrames
    SimulationStats.nonCompliantFrames].
  destruct (compliance_counters_loop _ _ _ _ _ _ R) as [Hc Hn].
  assert (Z0 : forall c, c <> unknownC -> complianceFrameCount c (p :: ps) = 0).
  { intros c Hc0. now apply complianceFrameCount_nobody. }
  split; [|split; [exact Ev|]].
  - rewrite (processed_current _ _ _ _ _ _ R), T. simpl. now rewrite map_repeat.
  - split; [rewrite Hc | rewrite Hn]; simpl; apply Z0; discriminate.
Qed.

Lemma nobody_on_the_stairs_witness :
  exists r,
    simulateDebounce (framesFrom 0 [[]; []; []]) DEFAULT_PHONE_THRESHOLD half = Normal r
    /\ map currentOf (SimulationResult.packets r)
       = repeat (Some (unknownC, unknownP)) (List.length (framesFrom 0 [[]; []; []]))
    /\ SimulationResult.events r = []
    /\ SimulationStats.compliantFrames (SimulationResult.stats r) = 0
    /\ SimulationStats.nonCompliantFrames (SimulationResult.stats r) = 0.
Proof.
  apply (nobody_on_the_stairs (framesFrom 0 [[]; []; []]) DEFAULT_PHONE_THRESHOLD half).
  repeat constructor.
Defined.

(* ================================================================== *)
(** ** [determineEventType] *)

(** X13. The label of a transition: it is "state_change" exactly when the two
    states are equal; when the compliance components differ the label is
    decided by the new compliance alone, "compliant_start" for Compliant and
    "non_compliant_start" otherwise (also for a transition to Unknown),
    whatever the phone components are; when only the phone components
    differ it is "phone_detected" for Phone and "phone_ended" otherwise
    (also for a transition to Unknown). *)
Theorem determineEventType_labels (oldState newState : StateTuple) :
  (determineEventType oldState newState = "state_change"%string <-> oldState = newState)
  /\ (fst oldState <> fst newState ->
      (fst newState = compliant ->
       determineEventType oldState newState = "compliant_start"%string)
      /\ (fst newState <> compliant ->
          determineEventType oldState newState = "non_compliant_start"%string)
      /\ (forall p p',
            determineEventType (fst oldState, p) (fst newState, p')
            = determineEventType oldState newState))
  /\ (fst oldState = fst newState -> snd oldState <> snd newState ->
      (snd newState = phone ->
       determineEventType oldState newState = "phone_detected"%string)
      /\ (snd newState <> phone ->
          determineEventType oldState newState = "phone_ended"%string)).
Proof.
  destruct oldState as [c p], newState as [c' p'].
  split; [|split].
  - destruct c, c', p, p'; vm_compute; split; intros H; congruence.
  - simpl. intros Hc. unfold determineEventType. cbn [fst snd].
    apply ComplianceState_eqb_neq in Hc. rewrite Hc. cbn [negb].
    split; [|split].
    + intros ->. reflexivity.
    + intros Hn. apply ComplianceState_eqb_neq in Hn. now rewrite Hn.
    + reflexivity.
  - simpl. intros <- Hp. unfold determineEventType. cbn [fst snd].
    rewrite ComplianceState_eqb_refl. cbn [negb].
    apply PhoneState_eqb_neq in Hp. rewrite Hp. cbn [negb].
    split.
    + intros ->. reflexivity.
    + intros Hn. apply PhoneState_eqb_neq in Hn. now rewrite Hn.
Qed.

(* ================================================================== *)
(** ** The Tuning Lab page *)

Lemma SFeqb_finite (x : number) (s : bool) (m : positive) (e : Z) :
  SFeqb x (S754_finite s m e) = true -> x = S754_finite s m e.
Proof.
  unfold SFeqb. destruct x as [sx|sx| |sx mx ex]; cbn [SFcompare];
    try discriminate.
  - destruct s; discriminate.
  - destruct sx, s; discriminate.
  - change (Pos.compare_cont Eq mx m) with (Pos.compare mx m).
    destruct sx, s; try discriminate;
      destruct (Z.compare_spec ex e); try discriminate;
      destruct (Pos.compare_spec mx m); try discriminate; subst; reflexivity.
Qed.

Lemma tuningLab_returns (ps : list FramePacket) (t d : number) (v : TuningLabValues) :
  tuningLab ps t d = Normal v ->
  simulateDebounce ps DEFAULT_PHONE_THRESHOLD DEFAULT_DEBOUNCE_DURATION
  = Normal (baselineResult v)
  /\ simulateDebounce ps t d = Normal (tunedResult v)
  /\ comparison v =
       if Nat.eqb (List.length ps) 0 then None
       else Some (compareParameters (SimulationResult.stats (baselineResult v))
                    (SimulationResult.stats (tunedResult v))).
Proof.
  unfold tuningLab.
  destruct (simulateDebounce ps DEFAULT_PHONE_THRESHOLD DEFAULT_DEBOUNCE_DURATION)
    as [b|e]; [|discriminate].
  destruct (simulateDebounce ps t d) as [u|e]; [|discriminate].
  intros [= <-]. repeat split.
Qed.

(** X14. What the page compares: when both runs return, the comparison is
    [null] exactly for an empty frame list; otherwise its
    [phoneFramesChange] is the number of raw phone frames under the tuned
    threshold minus that under 0.05, hence independent of the debounce
    slider, non-negative for a threshold of at least 0.05 and non-positive
    for a threshold of at most 0.05; and its [eventsChange] is 0. *)
Theorem tuningLab_comparison (packets : list FramePacket) (t d : number)
    (v : TuningLabValues) :
  tuningLab packets t d = Normal v ->
  (comparison v = None <-> packets = [])
  /\ (forall c, comparison v = Some c ->
        Comparison.phoneFramesChange (Comparison.delta c)
        = phoneFrameCount t packets - phoneFrameCount DEFAULT_PHONE_THRESHOLD packets
        /\ Comparison.eventsChange (Comparison.delta c) = 0
        /\ (le DEFAULT_PHONE_THRESHOLD t = true ->
            0 <= Comparison.phoneFramesChange (Comparison.delta c))
        /\ (le t DEFAULT_PHONE_THRESHOLD = true ->
            Comparison.phoneFramesChange (Comparison.delta c) <= 0)
        /\ Comparison.stats (Comparison.baseline c)
           = SimulationResult.stats (baselineResult v)
        /\ Comparison.stats (Comparison.tuned c)
           = SimulationResult.stats (tunedResult v)).
Proof.
  intros H. apply tuningLab_returns in H. destruct H as (Hb & Ht & Hc).
  split.
  - rewrite Hc. destruct packets; simpl; split; congruence.
  - intros c Ec. rewrite Hc in Ec. destruct (Nat.eqb _ _); [discriminate|].
    injection Ec as <-. cbn [Comparison.delta Comparison.phoneFramesChange
      Comparison.eventsChange Comparison.baseline Comparison.tuned Comparison.stats
      compareParameters].
    rewrite (simulateDebounce_phoneFrames _ _ _ _ Hb).
    rewrite (simulateDebounce_phoneFrames _ _ _ _ Ht).
    destruct (returned_run_has_no_event _ _ _ _ Hb) as [_ Eb].
    destruct (returned_run_has_no_event _ _ _ _ Ht) as [_ Et].
    rewrite Eb, Et.
    split; [reflexivity|]. split; [reflexivity|]. split; [|split; [|split; reflexivity]].
    + intros Hle. pose proof (phoneFrameCount_monotone _ _ packets Hle). lia.
    + intros Hle. pose proof (phoneFrameCount_monotone _ _ packets Hle). lia.
Qed.

Lemma tuningLab_comparison_witness :
  exists v,
    tuningLab handNearEar near half = Normal v
    /\ (comparison v = None <-> handNearEar = [])
    /\ (forall c, comparison v = Some c ->
          Comparison.phoneFramesChange (Comparison.delta c) = 0 - 2
          /\ Comparison.eventsChange (Comparison.delta c) = 0).
Proof.
  exists (match tuningLab handNearEar near half with
          | Normal v => v
          | Throw _ =>
              {| baselineResult := returned (Throw (ReferenceError ""));
                 tunedResult := returned (Throw (ReferenceError ""));
                 comparison := None |}
          end).
  split; [vm_compute; reflexivity|].
  destruct (tuningLab_comparison handNearEar near half
              (match tuningLab handNearEar near half with
               | Normal v => v
               | Throw _ =>
                   {| baselineResult := returned (Throw (ReferenceError ""));
                      tunedResult := returned (Throw (ReferenceError ""));
                      comparison := None |}
               end)) as [H1 H2].
  - vm_compute. reflexivity.
  - split; [exact H1|]. intros c Hc. destruct (H2 c Hc) as (P & E & _).
    split; [rewrite P; reflexivity | exact E].
Defined.

(** X15. Sliders at their defaults: when [hasChanges] is false the tuned
    parameters are the defaults themselves, so the page has values exactly
    when the baseline run returns, the tuned result is the baseline result
    and both deltas are 0; and when the baseline run raises, the page raises
    the same exception for every position of the sliders. *)
Theorem tuningLab_at_defaults (packets : list FramePacket) (t d : number) :
  (hasChanges t d = false ->
   t = DEFAULT_PHONE_THRESHOLD /\ d = DEFAULT_DEBOUNCE_DURATION
   /\ forall b,
        simulateDebounce packets DEFAULT_PHONE_THRESHOLD DEFAULT_DEBOUNCE_DURATION
        = Normal b ->
        exists v,
          tuningLab packets t d = Normal v
          /\ baselineResult v = b /\ tunedResult v = b
          /\ forall c, comparison v = Some c ->
                Comparison.phoneFramesChange (Comparison.delta c) = 0
                /\ Comparison.eventsChange (Comparison.delta c) = 0)
  /\ (forall e,
        simulateDebounce packets DEFAULT_PHONE_THRESHOLD DEFAULT_DEBOUNCE_DURATION
        = Throw e ->
        tuningLab packets t d = Throw e).
Proof.
  split.
  - unfold hasChanges. intros H. apply orb_false_iff in H. destruct H as [H1 H2].
    apply negb_false_iff in H1, H2.
    assert (E1 : t = DEFAULT_PHONE_THRESHOLD) by (apply SFeqb_finite; exact H1).
    assert (E2 : d = DEFAULT_DEBOUNCE_DURATION) by (apply SFeqb_finite; exact H2).
    clear H1 H2. split; [exact E1|]. split; [exact E2|].
    intros b Hb. subst t d. unfold tuningLab. rewrite Hb.
    eexists. split; [reflexivity|]. cbn [baselineResult tunedResult comparison].
    split; [reflexivity|]. split; [reflexivity|].
    intros c Hc. destruct (Nat.eqb _ _); [discriminate|]. injection Hc as <-.
    simpl. lia.
  - intros e He. unfold tuningLab. now rewrite He.
Qed.

(* ================================================================== *)
(** ** The timeline bars drawn from the processed packets *)

Lemma positive_filter_length {A : Type} (f : A -> bool) (xs : list A) :
  (0 <? filter_length f xs) = existsb f xs.
Proof.
  unfold filter_length. induction xs as [|x xs IH]; simpl; [reflexivity|].
  destruct (f x); simpl; [|exact IH].
  apply Z.ltb_lt. lia.
Qed.

Lemma isPhone_recomputed (t : number) (ps : list FramePacket) :
  map isPhone (recomputeWithThreshold ps t)
  = map (fun p => existsb (phoneFlag t) (persons p)) ps.
Proof.
  unfold recomputeWithThreshold. rewrite map_map. apply map_ext. intros p.
  unfold isPhone. simpl. rewrite positive_filter_length. apply anyUsingPhone_recomputed.
Qed.

Lemma filter_length_as_map {A : Type} (f : A -> bool) (xs : list A) :
  filter_length f xs = filter_length (fun b : bool => b) (map f xs).
Proof. now rewrite filter_length_map. Qed.

(** X16. The phone bar of the timeline agrees with the statistics: in a run
    that returns, a processed packet gets an orange phone bar
    ([phone_count > 0]) exactly when some person of the frame is flagged
    under the threshold, and the number of packets with a phone bar is
    [stats.phoneFrames]. *)
Theorem timeline_phone_bars (packets : list FramePacket) (t d : number)
    (r : SimulationResult.t) :
  simulateDebounce packets t d = Normal r ->
  map isPhone (SimulationResult.packets r)
  = map (fun p => existsb (phoneFlag t) (persons p)) packets
  /\ filter_length isPhone (SimulationResult.packets r)
     = SimulationStats.phoneFrames (SimulationResult.stats r).
Proof.
  intros H.
  pose proof (simulateDebounce_packets_are_recomputed_aux packets t d r H) as E.
  assert (M : map isPhone (SimulationResult.packets r)
              = map (fun p => existsb (phoneFlag t) (persons p)) packets).
  { assert (W : forall l, map isPhone l = map isPhone (map withoutStateMachine l)).
    { intros l. rewrite map_map. reflexivity. }
    rewrite <- isPhone_recomputed.
    rewrite (W (SimulationResult.packets r)), E. symmetry. apply W. }
  split; [exact M|].
  rewrite (simulateDebounce_phoneFrames _ _ _ _ H).
  rewrite filter_length_as_map, M. unfold phoneFrameCount.
  now rewrite <- filter_length_as_map.
Qed.

Lemma timeline_phone_bars_witness :
  map isPhone
    (SimulationResult.packets
       (returned (simulateDebounce mixedFrames DEFAULT_PHONE_THRESHOLD half)))
  = [true; false; false]
  /\ filter_length isPhone
       (SimulationResult.packets
          (returned (simulateDebounce mixedFrames DEFAULT_PHONE_THRESHOLD half)))
     = SimulationStats.phoneFrames
         (SimulationResult.stats
            (returned (simulateDebounce mixedFrames DEFAULT_PHONE_THRESHOLD half))).
Proof.
  destruct (timeline_phone_bars mixedFrames DEFAULT_PHONE_THRESHOLD half
              (returned (simulateDebounce mixedFrames DEFAULT_PHONE_THRESHOLD half)))
    as [M C].
  - vm_compute. reflexivity.
  - split; [rewrite M; vm_compute; reflexivity | exact C].
Defined.

Lemma complianceBar_recomputed (t : number) (ps : list FramePacket) :
  map complianceBarClass (map withoutStateMachine (recomputeWithThreshold ps t))
  = map complianceBarClass ps.
Proof.
  unfold recomputeWithThreshold. rewrite !map_map. apply map_ext. reflexivity.
Qed.

(** X17. Tuning never repaints the compliance bar of the timeline: in a run
    that returns, every processed packet gets the compliance colour of its
    input frame (it is read from [metrics.total_persons] and
    [metrics.compliant_count], which the simulation copies), so the baseline
    and the tuned timeline show the same compliance bars whatever the two
    parameters are. *)
Theorem timeline_compliance_bars (packets : list FramePacket) (t1 d1 t2 d2 : number)
    (r1 r2 : SimulationResult.t) :
  simulateDebounce packets t1 d1 = Normal r1 ->
  simulateDebounce packets t2 d2 = Normal r2 ->
  map complianceBarClass (SimulationResult.packets r1) = map complianceBarClass packets
  /\ map complianceBarClass (SimulationResult.packets r1)
     = map complianceBarClass (SimulationResult.packets r2).
Proof.
  intros H1 H2.
  assert (W : forall l, map complianceBarClass l
                        = map complianceBarClass (map withoutStateMachine l)).
  { intros l. rewrite map_map. reflexivity. }
  assert (G : forall t d r, simulateDebounce packets t d = Normal r ->
                map complianceBarClass (SimulationResult.packets r)
                = map complianceBarClass packets).
  { intros t d r H. rewrite W.
    rewrite (simulateDebounce_packets_are_recomputed_aux packets t d r H).
    apply complianceBar_recomputed. }
  split; [exact (G _ _ _ H1)|]. rewrite (G _ _ _ H1), (G _ _ _ H2). reflexivity.
Qed.

Lemma timeline_compliance_bars_witness :
  map complianceBarClass
    (SimulationResult.packets (returned (simulateDebounce mixedFrames near half)))
  = map complianceBarClass mixedFrames
  /\ map complianceBarClass
       (SimulationResult.packets (returned (simulateDebounce mixedFrames near half)))
     = map complianceBarClass
         (SimulationResult.packets
            (returned (simulateDebounce mixedFrames DEFAULT_PHONE_THRESHOLD
                         DEFAULT_DEBOUNCE_DURATION))).
Proof.
  apply (timeline_compliance_bars mixedFrames near half DEFAULT_PHONE_THRESHOLD
           DEFAULT_DEBOUNCE_DURATION); vm_compute; reflexivity.
Defined.
